(** * IPAddressV6: a shallow embedding of folly's IPv6 address value type

    The development follows [IPAddressV6.cpp]: the 16-byte storage, the
    constructors that work on raw bytes, the Teredo/6to4 classification,
    masking against the static table of 129 CIDR masks, the solicited-node
    derivation and the hash of IPv4-mapped addresses.

    Conventions.
    - [uint8_t] is [Byte.byte]; wider unsigned integers are [Z] with the
      wrap-around of each conversion written out ([u8], [u16], [u32]).
    - [size_t] quantities (lengths, prefix lengths) are [N].
    - [std::array<uint8_t, 16>] is a record of sixteen bytes, so that every
      inhabitant is a well-formed buffer.
    - A C++ [throw] is the [Throw] outcome of [result]; a failed [DCHECK]
      is the [CheckFailed] outcome. *)

From Stdlib Require Import ZArith NArith List String Ascii Bool Lia.
From Stdlib.Strings Require Import Byte.
From Stdlib Require Import DecimalString.
Import ListNotations.

Local Open Scope Z_scope.

(* ================================================================= *)
(** ** Fixed-width integers *)

Definition u8 (z : Z) : Z := z mod 2 ^ 8.
Definition u16 (z : Z) : Z := z mod 2 ^ 16.
Definition u32 (z : Z) : Z := z mod 2 ^ 32.

(** The value of a [uint8_t]. *)
Definition byte_to_Z (b : byte) : Z := Z.of_N (Byte.to_N b).

(** The conversion [(uint8_t) z]: reduction modulo 256. *)
Definition Z_to_byte (z : Z) : byte :=
  match Byte.of_N (Z.to_N (u8 z)) with
  | Some b => b
  | None => x00
  end.

(** [a ^ b] and [a & b] on [uint8_t] operands, stored back in a [uint8_t]:
    the operands are promoted to [int], the result is truncated. *)
Definition byte_xor (a b : byte) : byte :=
  Z_to_byte (Z.lxor (byte_to_Z a) (byte_to_Z b)).

Definition byte_and (a b : byte) : byte :=
  Z_to_byte (Z.land (byte_to_Z a) (byte_to_Z b)).

(** Reading [p[i]] through a pointer into a byte buffer.  The source never
    reads outside the buffers it is handed; the default only makes the
    function total. *)
Definition rd (p : list byte) (i : nat) : byte := nth i p x00.

(* ================================================================= *)
(** ** Outcomes of a call *)

Inductive exception : Type :=
| IPAddressFormatException (what : string)
| TypeError (what : string).

Inductive result (A : Type) : Type :=
| Ok (a : A)
| Throw (e : exception)
| CheckFailed.

Arguments Ok {A} a.
Arguments Throw {A} e.
Arguments CheckFailed {A}.

Definition bind {A B : Type} (r : result A) (k : A -> result B) : result B :=
  match r with
  | Ok a => k a
  | Throw e => Throw e
  | CheckFailed => CheckFailed
  end.

Notation "x <- r ;; k" := (bind r (fun x => k))
  (at level 61, r at next level, right associativity).

(** [to<std::string>(n)] for an unsigned size. *)
Definition dec (n : N) : string := NilZero.string_of_uint (N.to_uint n).

(* ================================================================= *)
(** ** Storage *)

(** [ByteArray16 = std::array<uint8_t, 16>]. *)
Record ByteArray16 : Type := mkByteArray16 {
  by0 : byte; by1 : byte; by2 : byte; by3 : byte;
  by4 : byte; by5 : byte; by6 : byte; by7 : byte;
  by8 : byte; by9 : byte; by10 : byte; by11 : byte;
  by12 : byte; by13 : byte; by14 : byte; by15 : byte
}.

(** The sixteen bytes in memory order: what [bytes()] points to. *)
Definition to_list (a : ByteArray16) : list byte :=
  [ by0 a; by1 a; by2 a; by3 a; by4 a; by5 a; by6 a; by7 a;
    by8 a; by9 a; by10 a; by11 a; by12 a; by13 a; by14 a; by15 a ].

(** [a[i]] for an index known only at run time. *)
Definition at_ (a : ByteArray16) (i : nat) : byte := rd (to_list a) i.

(** [memcpy(&array, p, 16)]. *)
Definition memcpy16 (p : list byte) : ByteArray16 :=
  mkByteArray16
    (rd p 0) (rd p 1) (rd p 2) (rd p 3) (rd p 4) (rd p 5) (rd p 6) (rd p 7)
    (rd p 8) (rd p 9) (rd p 10) (rd p 11) (rd p 12) (rd p 13) (rd p 14)
    (rd p 15).

Definition zero16 : ByteArray16 :=
  mkByteArray16 x00 x00 x00 x00 x00 x00 x00 x00
                x00 x00 x00 x00 x00 x00 x00 x00.

(** The 6 raw bytes of a [MacAddress], as [mac.bytes()] exposes them. *)
Record MacAddress : Type := mkMacAddress {
  mac0 : byte; mac1 : byte; mac2 : byte;
  mac3 : byte; mac4 : byte; mac5 : byte
}.

(** An [IPAddressV4], through the four octets of its [in_addr] in network
    order. *)
Record IPAddressV4 : Type := mkIPAddressV4 {
  oct0 : byte; oct1 : byte; oct2 : byte; oct3 : byte
}.

(** A [sockaddr_in6], restricted to the two members the address type reads. *)
Record sockaddr_in6 : Type := mkSockaddrIn6 {
  sin6_addr : ByteArray16;
  sin6_scope_id : Z
}.

(** The address: the [addr_] storage and the 16-bit [scope_]. *)
Record IPAddressV6 : Type := mkIPAddressV6 {
  addr_ : ByteArray16;
  scope_ : Z
}.

Definition bytes (a : IPAddressV6) : list byte := to_list (addr_ a).

(** [enum class Type]. *)
Inductive Type_ : Type := TEREDO | T6TO4 | NORMAL.

Definition Type_eqb (s t : Type_) : bool :=
  match s, t with
  | TEREDO, TEREDO | T6TO4, T6TO4 | NORMAL, NORMAL => true
  | _, _ => false
  end.

(* ================================================================= *)
(** ** Constants *)

Definition PREFIX_TEREDO : Z := 0x20010000.
Definition PREFIX_6TO4 : Z := 0x2002.

(** Modelled from the spec: [bitCount()] is declared in [IPAddressV6.h],
    which is not among the sources; the address is a 128-bit value. *)
Definition bitCount : N := 128%N.

(** Modelled from the spec: the member initialiser of [scope_] lives in
    [IPAddressV6.h]; the scope identifier defaults to 0. *)
Definition default_scope : Z := 0.

(* ================================================================= *)
(** ** The static mask table

    [masks_] is transcribed entry by entry from the source; entry [n] is
    the mask of prefix length [/n]. *)

Definition BA := mkByteArray16.

Definition masks_ : list ByteArray16 := [
  (* /0   *) BA x00 x00 x00 x00 x00 x00 x00 x00 x00 x00 x00 x00 x00 x00 x00 x00;
  (* /1   *) BA x80 x00 x00 x00 x00 x00 x00 x00 x00 x00 x00 x00 x00 x00 x00 x00;
  (* /2   *) BA xc0 x00 x00 x00 x00 x00 x00 x00 x00 x00 x00 x00 x00 x00 x00 x00;
  (* /3   *) BA xe0 x00 x00 x00 x00 x00 x00 x00 x00 x00 x00 x00 x00 x00 x00 x00;
  (* /4   *) BA xf0 x00 x00 x00 x00 x00 x00 x00 x00 x00 x00 x00 x00 x00 x00 x00;
  (* /5   *) BA xf8 x00 x00 x00 x00 x00 x00 x00 x00 x00 x00 x00 x00 x00 x00 x00;
  (* /6   *) BA xfc x00 x00 x00 x00 x00 x00 x00 x00 x00 x00 x00 x00 x00 x00 x00;
  (* /7   *) BA xfe x00 x00 x00 x00 x00 x00 x00 x00 x00 x00 x00 x00 x00 x00 x00;
  (* /8   *) BA xff x00 x00 x00 x00 x00 x00 x00 x00 x00 x00 x00 x00 x00 x00 x00;
  (* /9   *) BA xff x80 x00 x00 x00 x00 x00 x00 x00 x00 x00 x00 x00 x00 x00 x00;
  (* /10  *) BA xff xc0 x00 x00 x00 x00 x00 x00 x00 x00 x00 x00 x00 x00 x00 x00;
  (* /11  *) BA xff xe0 x00 x00 x00 x00 x00 x00 x00 x00 x00 x00 x00 x00 x00 x00;
  (* /12  *) BA xff xf0 x00 x00 x00 x00 x00 x00 x00 x00 x00 x00 x00 x00 x00 x00;
  (* /13  *) BA xff xf8 x00 x00 x00 x00 x00 x00 x00 x00 x00 x00 x00 x00 x00 x00;
  (* /14  *) BA xff xfc x00 x00 x00 x00 x00 x00 x00 x00 x00 x00 x00 x00 x00 x00;
  (* /15  *) BA xff xfe x00 x00 x00 x00 x00 x00 x00 x00 x00 x00 x00 x00 x00 x00;
  (* /16  *) BA xff xff x00 x00 x00 x00 x00 x00 x00 x00 x00 x00 x00 x00 x00 x00;
  (* /17  *) BA xff xff x80 x00 x00 x00 x00 x00 x00 x00 x00 x00 x00 x00 x00 x00;
  (* /18  *) BA xff xff xc0 x00 x00 x00 x00 x00 x00 x00 x00 x00 x00 x00 x00 x00;
  (* /19  *) BA xff xff xe0 x00 x00 x00 x00 x00 x00 x00 x00 x00 x00 x00 x00 x00;
  (* /20  *) BA xff xff xf0 x00 x00 x00 x00 x00 x00 x00 x00 x00 x00 x00 x00 x00;
  (* /21  *) BA xff xff xf8 x00 x00 x00 x00 x00 x00 x00 x00 x00 x00 x00 x00 x00;
  (* /22  *) BA xff xff xfc x00 x00 x00 x00 x00 x00 x00 x00 x00 x00 x00 x00 x00;
  (* /23  *) BA xff xff xfe x00 x00 x00 x00 x00 x00 x00 x00 x00 x00 x00 x00 x00;
  (* /24  *) BA xff xff xff x00 x00 x00 x00 x00 x00 x00 x00 x00 x00 x00 x00 x00;
  (* /25  *) BA xff xff xff x80 x00 x00 x00 x00 x00 x00 x00 x00 x00 x00 x00 x00;
  (* /26  *) BA xff xff xff xc0 x00 x00 x00 x00 x00 x00 x00 x00 x00 x00 x00 x00;
  (* /27  *) BA xff xff xff xe0 x00 x00 x00 x00 x00 x00 x00 x00 x00 x00 x00 x00;
  (* /28  *) BA xff xff xff xf0 x00 x00 x00 x00 x00 x00 x00 x00 x00 x00 x00 x00;
  (* /29  *) BA xff xff xff xf8 x00 x00 x00 x00 x00 x00 x00 x00 x00 x00 x00 x00;
  (* /30  *) BA xff xff xff xfc x00 x00 x00 x00 x00 x00 x00 x00 x00 x00 x00 x00;
  (* /31  *) BA xff xff xff xfe x00 x00 x00 x00 x00 x00 x00 x00 x00 x00 x00 x00;
  (* /32  *) BA xff xff xff xff x00 x00 x00 x00 x00 x00 x00 x00 x00 x00 x00 x00;
  (* /33  *) BA xff xff xff xff x80 x00 x00 x00 x00 x00 x00 x00 x00 x00 x00 x00;
  (* /34  *) BA xff xff xff xff xc0 x00 x00 x00 x00 x00 x00 x00 x00 x00 x00 x00;
  (* /35  *) BA xff xff xff xff xe0 x00 x00 x00 x00 x00 x00 x00 x00 x00 x00 x00;
  (* /36  *) BA xff xff xff xff xf0 x00 x00 x00 x00 x00 x00 x00 x00 x00 x00 x00;
  (* /37  *) BA xff xff xff xff xf8 x00 x00 x00 x00 x00 x00 x00 x00 x00 x00 x00;
  (* /38  *) BA xff xff xff xff xfc x00 x00 x00 x00 x00 x00 x00 x00 x00 x00 x00;
  (* /39  *) BA xff xff xff xff xfe x00 x00 x00 x00 x00 x00 x00 x00 x00 x00 x00;
  (* /40  *) BA xff xff xff xff xff x00 x00 x00 x00 x00 x00 x00 x00 x00 x00 x00;
  (* /41  *) BA xff xff xff xff xff x80 x00 x00 x00 x00 x00 x00 x00 x00 x00 x00;
  (* /42  *) BA xff xff xff xff xff xc0 x00 x00 x00 x00 x00 x00 x00 x00 x00 x00;
  (* /43  *) BA xff xff xff xff xff xe0 x00 x00 x00 x00 x00 x00 x00 x00 x00 x00;
  (* /44  *) BA xff xff xff xff xff xf0 x00 x00 x00 x00 x00 x00 x00 x00 x00 x00;
  (* /45  *) BA xff xff xff xff xff xf8 x00 x00 x00 x00 x00 x00 x00 x00 x00 x00;
  (* /46  *) BA xff xff xff xff xff xfc x00 x00 x00 x00 x00 x00 x00 x00 x00 x00;
  (* /47  *) BA xff xff xff xff xff xfe x00 x00 x00 x00 x00 x00 x00 x00 x00 x00;
  (* /48  *) BA xff xff xff xff xff xff x00 x00 x00 x00 x00 x00 x00 x00 x00 x00;
  (* /49  *) BA xff xff xff xff xff xff x80 x00 x00 x00 x00 x00 x00 x00 x00 x00;
  (* /50  *) BA xff xff xff xff xff xff xc0 x00 x00 x00 x00 x00 x00 x00 x00 x00;
  (* /51  *) BA xff xff xff xff xff xff xe0 x00 x00 x00 x00 x00 x00 x00 x00 x00;
  (* /52  *) BA xff xff xff xff xff xff xf0 x00 x00 x00 x00 x00 x00 x00 x00 x00;
  (* /53  *) BA xff xff xff xff xff xff xf8 x00 x00 x00 x00 x00 x00 x00 x00 x00;
  (* /54  *) BA xff xff xff xff xff xff xfc x00 x00 x00 x00 x00 x00 x00 x00 x00;
  (* /55  *) BA xff xff xff xff xff xff xfe x00 x00 x00 x00 x00 x00 x00 x00 x00;
  (* /56  *) BA xff xff xff xff xff xff xff x00 x00 x00 x00 x00 x00 x00 x00 x00;
  (* /57  *) BA xff xff xff xff xff xff xff x80 x00 x00 x00 x00 x00 x00 x00 x00;
  (* /58  *) BA xff xff xff xff xff xff xff xc0 x00 x00 x00 x00 x00 x00 x00 x00;
  (* /59  *) BA xff xff xff xff xff xff xff xe0 x00 x00 x00 x00 x00 x00 x00 x00;
  (* /60  *) BA xff xff xff xff xff xff xff xf0 x00 x00 x00 x00 x00 x00 x00 x00;
  (* /61  *) BA xff xff xff xff xff xff xff xf8 x00 x00 x00 x00 x00 x00 x00 x00;
  (* /62  *) BA xff xff xff xff xff xff xff xfc x00 x00 x00 x00 x00 x00 x00 x00;
  (* /63  *) BA xff xff xff xff xff xff xff xfe x00 x00 x00 x00 x00 x00 x00 x00;
  (* /64  *) BA xff xff xff xff xff xff xff xff x00 x00 x00 x00 x00 x00 x00 x00;
  (* /65  *) BA xff xff xff xff xff xff xff xff x80 x00 x00 x00 x00 x00 x00 x00;
  (* /66  *) BA xff xff xff xff xff xff xff xff xc0 x00 x00 x00 x00 x00 x00 x00;
  (* /67  *) BA xff xff xff xff xff xff xff xff xe0 x00 x00 x00 x00 x00 x00 x00;
  (* /68  *) BA xff xff xff xff xff xff xff xff xf0 x00 x00 x00 x00 x00 x00 x00;
  (* /69  *) BA xff xff xff xff xff xff xff xff xf8 x00 x00 x00 x00 x00 x00 x00;
  (* /70  *) BA xff xff xff xff xff xff xff xff xfc x00 x00 x00 x00 x00 x00 x00;
  (* /71  *) BA xff xff xff xff xff xff xff xff xfe x00 x00 x00 x00 x00 x00 x00;
  (* /72  *) BA xff xff xff xff xff xff xff xff xff x00 x00 x00 x00 x00 x00 x00;
  (* /73  *) BA xff xff xff xff xff xff xff xff xff x80 x00 x00 x00 x00 x00 x00;
  (* /74  *) BA xff xff xff xff xff xff xff xff xff xc0 x00 x00 x00 x00 x00 x00;
  (* /75  *) BA xff xff xff xff xff xff xff xff xff xe0 x00 x00 x00 x00 x00 x00;
  (* /76  *) BA xff xff xff xff xff xff xff xff xff xf0 x00 x00 x00 x00 x00 x00;
  (* /77  *) BA xff xff xff xff xff xff xff xff xff xf8 x00 x00 x00 x00 x00 x00;
  (* /78  *) BA xff xff xff xff xff xff xff xff xff xfc x00 x00 x00 x00 x00 x00;
  (* /79  *) BA xff xff xff xff xff xff xff xff xff xfe x00 x00 x00 x00 x00 x00;
  (* /80  *) BA xff xff xff xff xff xff xff xff xff xff x00 x00 x00 x00 x00 x00;
  (* /81  *) BA xff xff xff xff xff xff xff xff xff xff x80 x00 x00 x00 x00 x00;
  (* /82  *) BA xff xff xff xff xff xff xff xff xff xff xc0 x00 x00 x00 x00 x00;
  (* /83  *) BA xff xff xff xff xff xff xff xff xff xff xe0 x00 x00 x00 x00 x00;
  (* /84  *) BA xff xff xff xff xff xff xff xff xff xff xf0 x00 x00 x00 x00 x00;
  (* /85  *) BA xff xff xff xff xff xff xff xff xff xff xf8 x00 x00 x00 x00 x00;
  (* /86  *) BA xff xff xff xff xff xff xff xff xff xff xfc x00 x00 x00 x00 x00;
  (* /87  *) BA xff xff xff xff xff xff xff xff xff xff xfe x00 x00 x00 x00 x00;
  (* /88  *) BA xff xff xff xff xff xff xff xff xff xff xff x00 x00 x00 x00 x00;
  (* /89  *) BA xff xff xff xff xff xff xff xff xff xff xff x80 x00 x00 x00 x00;
  (* /90  *) BA xff xff xff xff xff xff xff xff xff xff xff xc0 x00 x00 x00 x00;
  (* /91  *) BA xff xff xff xff xff xff xff xff xff xff xff xe0 x00 x00 x00 x00;
  (* /92  *) BA xff xff xff xff xff xff xff xff xff xff xff xf0 x00 x00 x00 x00;
  (* /93  *) BA xff xff xff xff xff xff xff xff xff xff xff xf8 x00 x00 x00 x00;
  (* /94  *) BA xff xff xff xff xff xff xff xff xff xff xff xfc x00 x00 x00 x00;
  (* /95  *) BA xff xff xff xff xff xff xff xff xff xff xff xfe x00 x00 x00 x00;
  (* /96  *) BA xff xff xff xff xff xff xff xff xff xff xff xff x00 x00 x00 x00;
  (* /97  *) BA xff xff xff xff xff xff xff xff xff xff xff xff x80 x00 x00 x00;
  (* /98  *) BA xff xff xff xff xff xff xff xff xff xff xff xff xc0 x00 x00 x00;
  (* /99  *) BA xff xff xff xff xff xff xff xff xff xff xff xff xe0 x00 x00 x00;
  (* /100 *) BA xff xff xff xff xff xff xff xff xff xff xff xff xf0 x00 x00 x00;
  (* /101 *) BA xff xff xff xff xff xff xff xff xff xff xff xff xf8 x00 x00 x00;
  (* /102 *) BA xff xff xff xff xff xff xff xff xff xff xff xff xfc x00 x00 x00;
  (* /103 *) BA xff xff xff xff xff xff xff xff xff xff xff xff xfe x00 x00 x00;
  (* /104 *) BA xff xff xff xff xff xff xff xff xff xff xff xff xff x00 x00 x00;
  (* /105 *) BA xff xff xff xff xff xff xff xff xff xff xff xff xff x80 x00 x00;
  (* /106 *) BA xff xff xff xff xff xff xff xff xff xff xff xff xff xc0 x00 x00;
  (* /107 *) BA xff xff xff xff xff xff xff xff xff xff xff xff xff xe0 x00 x00;
  (* /108 *) BA xff xff xff xff xff xff xff xff xff xff xff xff xff xf0 x00 x00;
  (* /109 *) BA xff xff xff xff xff xff xff xff xff xff xff xff xff xf8 x00 x00;
  (* /110 *) BA xff xff xff xff xff xff xff xff xff xff xff xff xff xfc x00 x00;
  (* /111 *) BA xff xff xff xff xff xff xff xff xff xff xff xff xff xfe x00 x00;
  (* /112 *) BA xff xff xff xff xff xff xff xff xff xff xff xff xff xff x00 x00;
  (* /113 *) BA xff xff xff xff xff xff xff xff xff xff xff xff xff xff x80 x00;
  (* /114 *) BA xff xff xff xff xff xff xff xff xff xff xff xff xff xff xc0 x00;
  (* /115 *) BA xff xff xff xff xff xff xff xff xff xff xff xff xff xff xe0 x00;
  (* /116 *) BA xff xff xff xff xff xff xff xff xff xff xff xff xff xff xf0 x00;
  (* /117 *) BA xff xff xff xff xff xff xff xff xff xff xff xff xff xff xf8 x00;
  (* /118 *) BA xff xff xff xff xff xff xff xff xff xff xff xff xff xff xfc x00;
  (* /119 *) BA xff xff xff xff xff xff xff xff xff xff xff xff xff xff xfe x00;
  (* /120 *) BA xff xff xff xff xff xff xff xff xff xff xff xff xff xff xff x00;
  (* /121 *) BA xff xff xff xff xff xff xff xff xff xff xff xff xff xff xff x80;
  (* /122 *) BA xff xff xff xff xff xff xff xff xff xff xff xff xff xff xff xc0;
  (* /123 *) BA xff xff xff xff xff xff xff xff xff xff xff xff xff xff xff xe0;
  (* /124 *) BA xff xff xff xff xff xff xff xff xff xff xff xff xff xff xff xf0;
  (* /125 *) BA xff xff xff xff xff xff xff xff xff xff xff xff xff xff xff xf8;
  (* /126 *) BA xff xff xff xff xff xff xff xff xff xff xff xff xff xff xff xfc;
  (* /127 *) BA xff xff xff xff xff xff xff xff xff xff xff xff xff xff xff xfe;
  (* /128 *) BA xff xff xff xff xff xff xff xff xff xff xff xff xff xff xff xff
].

(* ================================================================= *)
(** ** Collaborators declared outside [IPAddressV6.cpp] *)

(** Modelled from the spec: [detail::Bytes::mask] lives in
    [detail/IPAddressSource.h], which is not among the sources; it is the
    byte-wise AND of two 16-byte buffers. *)
Definition Bytes_mask (a b : ByteArray16) : ByteArray16 :=
  mkByteArray16
    (byte_and (by0 a) (by0 b)) (byte_and (by1 a) (by1 b))
    (byte_and (by2 a) (by2 b)) (byte_and (by3 a) (by3 b))
    (byte_and (by4 a) (by4 b)) (byte_and (by5 a) (by5 b))
    (byte_and (by6 a) (by6 b)) (byte_and (by7 a) (by7 b))
    (byte_and (by8 a) (by8 b)) (byte_and (by9 a) (by9 b))
    (byte_and (by10 a) (by10 b)) (byte_and (by11 a) (by11 b))
    (byte_and (by12 a) (by12 b)) (byte_and (by13 a) (by13 b))
    (byte_and (by14 a) (by14 b)) (byte_and (by15 a) (by15 b)).

(** Modelled from the spec: [detail::Bytes::mkAddress4] lives in
    [detail/IPAddressSource.h]; it takes the four bytes at [p] as the IPv4
    value. *)
Definition mkAddress4 (p : list byte) : IPAddressV4 :=
  mkIPAddressV4 (rd p 0) (rd p 1) (rd p 2) (rd p 3).

(** Modelled from the spec: [toSockAddr] is declared in [IPAddressV6.h];
    the platform structure carries the 16-byte value and the scope id. *)
Definition toSockAddr (a : IPAddressV6) : sockaddr_in6 :=
  mkSockaddrIn6 (addr_ a) (scope_ a).

(* ================================================================= *)
(** ** Construction *)

(** [IPAddressV6::IPAddressV6()]: zeroed storage, default scope. *)
Definition IPAddressV6_default : IPAddressV6 :=
  mkIPAddressV6 zero16 default_scope.

(** [IPAddressV6::IPAddressV6(const sockaddr_in6&)]. *)
Definition IPAddressV6_of_sockaddr (src : sockaddr_in6) : IPAddressV6 :=
  mkIPAddressV6 (sin6_addr src) (u16 (sin6_scope_id src)).

(** [IPAddressV6::IPAddressV6(const ByteArray16&)]: only [addr_] is named in
    the initialiser list, [scope_] keeps its default. *)
Definition IPAddressV6_of_bytes (src : ByteArray16) : IPAddressV6 :=
  mkIPAddressV6 src default_scope.

(** [bytes_[i] = v]. *)
Fixpoint upd {A : Type} (l : list A) (i : nat) (v : A) : list A :=
  match l, i with
  | [], _ => []
  | _ :: t, O => v :: t
  | h :: t, S j => h :: upd t j v
  end.

Definition store (a : ByteArray16) (i : nat) (v : byte) : ByteArray16 :=
  memcpy16 (upd (to_list a) i v).

(** [memcpy(&bytes_.front(), src, n)] for [n <= 16]. *)
Definition memcpy_front (a : ByteArray16) (src : list byte) (n : nat)
  : ByteArray16 :=
  memcpy16 (firstn n src ++ skipn n (to_list a)).

(** The C string literal ["\xfe\x80\x00\x00\x00\x00\x00\x00"], with its
    terminating NUL. *)
Definition link_local_prefix : list byte :=
  [xfe; x80; x00; x00; x00; x00; x00; x00; x00].

(** [AddressStorage::AddressStorage(MacAddress)].  The constructor does not
    initialise [bytes_] before writing to it: [uninit] is whatever the
    storage held. *)
Definition AddressStorage_of_mac (uninit : ByteArray16) (mac : MacAddress)
  : ByteArray16 :=
  let bytes_ := memcpy_front uninit link_local_prefix 8 in
  let bytes_ := store bytes_ 8 (byte_xor (mac0 mac) x02) in
  let bytes_ := store bytes_ 9 (mac1 mac) in
  let bytes_ := store bytes_ 10 (mac2 mac) in
  let bytes_ := store bytes_ 11 xff in
  let bytes_ := store bytes_ 12 xfe in
  let bytes_ := store bytes_ 13 (mac3 mac) in
  let bytes_ := store bytes_ 14 (mac4 mac) in
  let bytes_ := store bytes_ 15 (mac5 mac) in
  bytes_.

(** [IPAddressV6::IPAddressV6(LinkLocalTag, MacAddress)]. *)
Definition IPAddressV6_link_local (uninit : ByteArray16) (mac : MacAddress)
  : IPAddressV6 :=
  mkIPAddressV6 (AddressStorage_of_mac uninit mac) default_scope.

(** [IPAddressV6::setFromBinary]: the receiver after the call, or the
    exception. *)
Definition setFromBinary (this : IPAddressV6) (bytes : list byte)
  : result IPAddressV6 :=
  let size := N.of_nat (List.length bytes) in
  if negb (size =? 16)%N then
    Throw (IPAddressFormatException
             ("Invalid IPv6 binary data: length must " ++
              "be 16 bytes, got " ++ dec size)%string)
  else
    Ok (mkIPAddressV6 (memcpy16 bytes) 0).

(** Modelled from the spec: [fromBinary] is defined in [IPAddressV6.h];
    it default-constructs an address and fills it with [setFromBinary]
    (copies the 16 bytes verbatim, fails on any other length, scope 0). *)
Definition fromBinary (bytes : list byte) : result IPAddressV6 :=
  setFromBinary IPAddressV6_default bytes.

(* ================================================================= *)
(** ** Word unpacking *)

(** [static inline uint16_t unpack(uint8_t lobyte, uint8_t hibyte)]. *)
Definition unpack (lobyte hibyte : byte) : Z :=
  u16 (Z.lor (Z.shiftl (u16 (byte_to_Z hibyte)) 8) (u16 (byte_to_Z lobyte))).

(** The [for] loop of [unpackInto], [n] iterations left, with the loop
    variables [i], [hi], [lo] threaded through. *)
Fixpoint unpackInto_loop (src : list byte) (dest : list Z)
         (n i hi lo : nat) : list Z :=
  match n with
  | O => dest
  | S n' =>
      let dest := upd dest i (unpack (rd src hi) (rd src lo)) in
      unpackInto_loop src dest n' (i + 1) (hi + 2) (lo + 2)
  end.

(** [unpackInto(src, dest, count)]: [i = 0, hi = 1, lo = 0] on entry. *)
Definition unpackInto (src : list byte) (dest : list Z) (count : nat)
  : list Z :=
  unpackInto_loop src dest count 0 1 0.

(** [ints[i]]. *)
Definition word (ints : list Z) (i : nat) : Z := nth i ints 0.

(* ================================================================= *)
(** ** Classification *)

(** [IPAddressV6::type]. *)
Definition type (a : IPAddressV6) : Type_ :=
  let ints := unpackInto (bytes a) [0; 0] 2 in
  if Z.lor (u32 (Z.shiftl (u32 (word ints 0)) 16)) (word ints 1)
     =? PREFIX_TEREDO
  then TEREDO
  else if u32 (word ints 0) =? PREFIX_6TO4
  then T6TO4
  else NORMAL.

(** Modelled from the spec: [is6To4] is defined in [IPAddressV6.h]; it
    holds exactly when the classification is [SixToFour]. *)
Definition is6To4 (a : IPAddressV6) : bool := Type_eqb (type a) T6TO4.

(** The first loop of [isIPv4Mapped]: is some byte among
    [by[i] .. by[i + n - 1]] different from [0x00]? *)
Fixpoint nonzero_within (by_ : list byte) (i n : nat) : bool :=
  match n with
  | O => false
  | S n' =>
      if negb (byte_to_Z (rd by_ i) =? 0x00) then true
      else nonzero_within by_ (i + 1) n'
  end.

(** [IPAddressV6::isIPv4Mapped]. *)
Definition isIPv4Mapped (a : IPAddressV6) : bool :=
  let by_ := bytes a in
  if nonzero_within by_ 0 10 then false
  else if (byte_to_Z (rd by_ 10) =? 0xff) && (byte_to_Z (rd by_ 11) =? 0xff)
  then true
  else false.

(** [IPAddressV6::createIPv4]. *)
Definition createIPv4 (a : IPAddressV6) : result IPAddressV4 :=
  if negb (isIPv4Mapped a) then
    Throw (IPAddressFormatException "addr is not v4-to-v6-mapped")
  else
    let by_ := bytes a in
    Ok (mkAddress4 (skipn 12 by_)).

(** Modelled from the spec: [IPAddress::createIPv4] belongs to
    [IPAddress.cpp], which is not among the sources; on a wrapped IPv6
    address it yields the embedded IPv4 address, that is [createIPv4]. *)
Definition IPAddress_createIPv4 (a : IPAddressV6) : result IPAddressV4 :=
  createIPv4 a.

(** [IPAddressV6::isMulticast]. *)
Definition isMulticast (a : IPAddressV6) : bool :=
  byte_to_Z (by0 (addr_ a)) =? 0xff.

(* ================================================================= *)
(** ** Masking *)

(** [IPAddressV6::fetchMask]. *)
Definition fetchMask (numBits : N) : result ByteArray16 :=
  let bits := bitCount in
  if (bits <? numBits)%N then
    Throw (IPAddressFormatException "IPv6 addresses are 128 bits.")
  else
    Ok (nth (N.to_nat numBits) masks_ zero16).

(** [IPAddressV6::mask]. *)
Definition mask (a : IPAddressV6) (numBits : N) : result IPAddressV6 :=
  let bits := bitCount in
  if (bits <? numBits)%N then
    Throw (IPAddressFormatException
             ("numBits(" ++ dec numBits ++ ") > bitCount(" ++ dec bits ++ ")")
             %string)
  else
    m <- fetchMask numBits ;;
    let ba := Bytes_mask m (addr_ a) in
    Ok (IPAddressV6_of_bytes ba).

(* ================================================================= *)
(** ** Operations that reach the platform or another translation unit *)

Section Platform.

(** Whether the build defines [NDEBUG], which compiles [DCHECK] away. *)
Variable ndebug : bool.

(** [getnameinfo] with [NI_NUMERICHOST] on a [sockaddr_in6] and a buffer
    of [INET6_ADDRSTRLEN] characters: the rendered host when it returns
    0, [None] when it returns an error code. *)
Variable getnameinfo : sockaddr_in6 -> option string.

(** [detail::Bytes::toHex(p, 16)]. *)
Variable toHex : list byte -> string.

(** [IPAddressV4::hash], the reference hash of an IPv4 address. *)
Variable hashV4 : IPAddressV4 -> Z.

(** The [AF_INET6] constant of the platform. *)
Variable AF_INET6 : Z.

(** [hash::SpookyHashV2::Hash128(message, length, &hash1, &hash2)]: the
    two words it leaves in [hash1] and [hash2], from the message and
    the two seeds found there on entry. *)
Variable Hash128 : list byte -> Z -> Z -> Z * Z.

(** [hash::hash_combine] at three arguments. *)
Variable hash_combine : Z -> Z -> Z -> Z.

(** [DCHECK(cond)]. *)
Definition DCHECK (cond : bool) : result unit :=
  if ndebug || cond then Ok tt else CheckFailed.

(** [IPAddressV6::str]. *)
Definition str (a : IPAddressV6) : result string :=
  let sock := toSockAddr a in
  match getnameinfo sock with
  | Some buffer => Ok buffer
  | None =>
      Throw (IPAddressFormatException
               ("Invalid address with hex " ++ "'" ++
                toHex (firstn 16 (bytes a)) ++ "'")%string)
  end.

(** [IPAddressV6::getIPv4For6To4].  The exception message is built from
    [str()], which is evaluated, and may itself throw, before the
    [TypeError] exists. *)
Definition getIPv4For6To4 (a : IPAddressV6) : result IPAddressV4 :=
  if negb (is6To4 a) then
    s <- str a ;;
    Throw (TypeError ("Invalid IP '" ++ s ++ "': not a 6to4 address")%string)
  else
    let ints := unpackInto (bytes a) [0; 0; 0; 0] 4 in
    Ok (mkIPAddressV4
          (Z_to_byte (Z.shiftr (Z.land (word ints 1) 0xFF00) 8))
          (Z_to_byte (Z.land (word ints 1) 0x00FF))
          (Z_to_byte (Z.shiftr (Z.land (word ints 2) 0xFF00) 8))
          (Z_to_byte (Z.land (word ints 2) 0x00FF))).

(** [IPAddressV6::getSolicitedNodeAddress]. *)
Definition getSolicitedNodeAddress (a : IPAddressV6) : result IPAddressV6 :=
  _ <- DCHECK (negb (isMulticast a)) ;;
  let bytes := [ xff; x02; x00; x00; x00; x00; x00; x00;
                 x00; x00; x00; x01; xff; x00; x00; x00 ] in
  let bytes := upd bytes 13 (at_ (addr_ a) 13) in
  let bytes := upd bytes 14 (at_ (addr_ a) 14) in
  let bytes := upd bytes 15 (at_ (addr_ a) 15) in
  fromBinary (firstn 16 bytes).

(** [IPAddressV6::hash]. *)
Definition hash (a : IPAddressV6) : result Z :=
  if isIPv4Mapped a then
    v4 <- IPAddress_createIPv4 a ;;
    Ok (hashV4 v4)
  else
    let seed := AF_INET6 in
    let '(hash1, hash2) := Hash128 (firstn 16 (to_list (addr_ a))) 0 0 in
    Ok (hash_combine seed hash1 hash2).

End Platform.

(* ================================================================= *)
(** ** The mask of a prefix length, in the words of the specification

    These definitions are not taken from the code: they say what the
    table is meant to contain, and [masks_] is compared with them. *)

(** Bit [i] of a buffer, bit 0 being the most significant bit of byte 0. *)
Definition bit_msb (m : ByteArray16) (i : nat) : bool :=
  Z.testbit (byte_to_Z (at_ m (i / 8))) (Z.of_nat (7 - i mod 8)).

(** The byte whose top [k] bits are set and whose other bits are clear. *)
Definition top_bits (k : nat) : byte :=
  Z_to_byte (2 ^ 8 - 2 ^ Z.of_nat (8 - k)).

(** [n / 8] bytes [0xFF], one partial byte when [n] is not a multiple of
    8, zero bytes up to 16. *)
Definition spec_mask_bytes (n : nat) : list byte :=
  let full := (n / 8)%nat in
  let partial := if (n mod 8 =? 0)%nat then [] else [top_bits (n mod 8)] in
  repeat xff full ++ partial ++
  repeat x00 (16 - full - List.length partial).

(** Equality test on byte sequences. *)
Fixpoint bytes_eqb (p q : list byte) : bool :=
  match p, q with
  | [], [] => true
  | x :: p', y :: q' => Byte.eqb x y && bytes_eqb p' q'
  | _, _ => false
  end.

(** What is checked of entry [n] of the table. *)
Definition mask_entry_ok (n : nat) : bool :=
  match fetchMask (N.of_nat n) with
  | Ok m =>
      forallb (fun i => Bool.eqb (bit_msb m i) (i <? n)%nat) (seq 0 128)
      && bytes_eqb (to_list m) (spec_mask_bytes n)
  | _ => false
  end.

(** The outcome is an exception of class [IPAddressFormatException]. *)
Definition throws_format {A : Type} (r : result A) : Prop :=
  exists what, r = Throw (IPAddressFormatException what).


(** The call returns normally. *)
Definition returns {A : Type} (r : result A) : Prop :=
  exists a, r = Ok a.

(** The first four bytes are [20 01 00 00]: the top 32 bits are the Teredo
    prefix [2001:0000::/32]. *)
Definition has_teredo_prefix (a : IPAddressV6) : Prop :=
  by0 (addr_ a) = x20 /\ by1 (addr_ a) = x01 /\
  by2 (addr_ a) = x00 /\ by3 (addr_ a) = x00.

(** The first two bytes are [20 02]: the top 16 bits are the 6to4 prefix
    [2002::/16]. *)
Definition has_6to4_prefix (a : IPAddressV6) : Prop :=
  by0 (addr_ a) = x20 /\ by1 (addr_ a) = x02.

(** Word [i] of a byte buffer read low byte first:
    [(src[2i+1] << 8) | src[2i]]. *)
Definition word_lo_hi (src : list byte) (i : nat) : Z :=
  Z.lor (Z.shiftl (byte_to_Z (rd src (2 * i + 1))) 8)
        (byte_to_Z (rd src (2 * i))).

(** Word [i] of a byte buffer read high byte first, in network order:
    [(src[2i] << 8) | src[2i+1]]. *)
Definition word_hi_lo (src : list byte) (i : nat) : Z :=
  Z.lor (Z.shiftl (byte_to_Z (rd src (2 * i))) 8)
        (byte_to_Z (rd src (2 * i + 1))).

(** Bytes 0..9 are zero and bytes 10..11 are [ff ff]: the IPv4-mapped
    prefix [::ffff:0:0/96]. *)
Definition has_mapped_prefix (a : IPAddressV6) : Prop :=
  (forall k, (k < 10)%nat -> at_ (addr_ a) k = x00) /\
  at_ (addr_ a) 10 = xff /\ at_ (addr_ a) 11 = xff.

(* ================================================================= *)
(** ** Sample values *)

(** 2001:db8:1234:5678::1 with scope id 7. *)
Definition addr_2001_db8 : IPAddressV6 :=
  mkIPAddressV6 (BA x20 x01 x0d xb8 x12 x34 x56 x78
                    x00 x00 x00 x00 x00 x00 x00 x01) 7.

(** 2002:c000:201::1, the 6to4 address of 192.0.2.1. *)
Definition addr_6to4 : IPAddressV6 :=
  mkIPAddressV6 (BA x20 x02 xc0 x00 x02 x01 x00 x00
                    x00 x00 x00 x00 x00 x00 x00 x01) 0.

(** fe80::1234:5678. *)
Definition addr_fe80 : IPAddressV6 :=
  mkIPAddressV6 (BA xfe x80 x00 x00 x00 x00 x00 x00
                    x00 x00 x00 x00 x12 x34 x56 x78) 0.

(** ::ffff:192.0.2.1, the IPv4-mapped form of 192.0.2.1. *)
Definition addr_mapped : IPAddressV6 :=
  mkIPAddressV6 (BA x00 x00 x00 x00 x00 x00 x00 x00
                    x00 x00 xff xff xc0 x00 x02 x01) 0.

(** The MAC address 00:11:22:33:44:55. *)
Definition mac_001122334455 : MacAddress :=
  mkMacAddress x00 x11 x22 x33 x44 x55.

(** A platform on which rendering succeeds, for the examples. *)
Definition sample_getnameinfo (sock : sockaddr_in6) : option string :=
  Some "2001:db8:1234:5678::1"%string.

Definition sample_toHex (p : list byte) : string := EmptyString.

(** A stand-in for the IPv4 hash, for the examples: the address as a
    32-bit number. *)
Definition sample_hashV4 (v : IPAddressV4) : Z :=
  byte_to_Z (oct0 v) * 2 ^ 24 + byte_to_Z (oct1 v) * 2 ^ 16
  + byte_to_Z (oct2 v) * 2 ^ 8 + byte_to_Z (oct3 v).

Definition sample_Hash128 (p : list byte) (seed1 seed2 : Z) : Z * Z :=
  (seed1 + Z.of_nat (List.length p), seed2).

Definition sample_hash_combine (x y z : Z) : Z := x + y + z.

(* ================================================================= *)
(** ** Subnets and the remaining predicates *)

(** [a == b] on [std::array<uint8_t, 16>]. *)
Definition ByteArray16_eqb (a b : ByteArray16) : bool :=
  bytes_eqb (to_list a) (to_list b).

(** Modelled from the spec: [toByteArray] is defined in [IPAddressV6.h];
    it hands out a copy of the 16-byte buffer. *)
Definition toByteArray (a : IPAddressV6) : ByteArray16 := addr_ a.

(** [IPAddressV6::inSubnetWithMask]. *)
Definition inSubnetWithMask (a subnet : IPAddressV6) (cidrMask : ByteArray16)
  : bool :=
  let mask := Bytes_mask (toByteArray a) cidrMask in
  let subMask := Bytes_mask (toByteArray subnet) cidrMask in
  ByteArray16_eqb mask subMask.

(** [IPAddressV6::inBinarySubnet]: [memcmp(addr.data(), masked.bytes(), 2)]
    is 0 exactly when both bytes agree. *)
Definition inBinarySubnet (a : IPAddressV6) (addr : byte * byte) (numBits : N)
  : result bool :=
  masked <- mask a numBits ;;
  Ok (Byte.eqb (fst addr) (rd (bytes masked) 0)
      && Byte.eqb (snd addr) (rd (bytes masked) 1)).

(** [IPAddressV6::isLinkLocal]. *)
Definition isLinkLocal (a : IPAddressV6) : result bool :=
  inBinarySubnet a (xfe, x80) 10.

(** Modelled from the spec: [IN6_IS_ADDR_LOOPBACK] is a macro of the
    platform's [netinet/in.h]; it holds of the literal [::1] only. *)
Definition IN6_IS_ADDR_LOOPBACK (addr : ByteArray16) : bool :=
  ByteArray16_eqb addr (BA x00 x00 x00 x00 x00 x00 x00 x00
                           x00 x00 x00 x00 x00 x00 x00 x01).

(** Modelled from the spec: [byteCount()] is declared in [IPAddressV6.h];
    the buffer has 16 bytes. *)
Definition byteCount : N := 16%N.

(** [std::invalid_argument], which is not one of folly's own exception
    classes. *)
Inductive std_exception : Type :=
| invalid_argument (what : string).

(** The outcome of a call that throws a standard exception only. *)
Inductive std_result (A : Type) : Type :=
| Value (a : A)
| StdThrow (e : std_exception).

Arguments Value {A} a.
Arguments StdThrow {A} e.

Section Predicates.

(** Whether the build defines [NDEBUG]. *)
Variable ndebug : bool.

(** [IPAddressV4::isLoopback] and [IPAddressV4::isPrivate]. *)
Variable isLoopbackV4 : IPAddressV4 -> bool.
Variable isPrivateV4 : IPAddressV4 -> bool.

(** [detail::familyNameStr(AF_INET6)]. *)
Variable familyNameStr_AF_INET6 : string.

(** [IPAddressV6::getMulticastFlags]. *)
Definition getMulticastFlags (a : IPAddressV6) : result byte :=
  _ <- DCHECK ndebug (isMulticast a) ;;
  Ok (Z_to_byte (Z.land (Z.shiftr (byte_to_Z (by1 (addr_ a))) 4) 0xf)).

(** [IPAddressV6::getMulticastScope]. *)
Definition getMulticastScope (a : IPAddressV6) : result byte :=
  _ <- DCHECK ndebug (isMulticast a) ;;
  Ok (Z_to_byte (Z.land (byte_to_Z (by1 (addr_ a))) 0xf)).

(** [IPAddressV6::isLoopback]; [&&] evaluates [createIPv4()] only on an
    IPv4-mapped address. *)
Definition isLoopback (a : IPAddressV6) : result bool :=
  v4loop <- (if isIPv4Mapped a
             then v4 <- createIPv4 a ;; Ok (isLoopbackV4 v4)
             else Ok false) ;;
  if v4loop then Ok true
  else
    let socka := toSockAddr a in
    Ok (IN6_IS_ADDR_LOOPBACK (sin6_addr socka)).

(** [IPAddressV6::isRoutable]; [||] and [&&] evaluate their right operand
    only when the left one does not decide. *)
Definition isRoutable (a : IPAddressV6) : result bool :=
  global <- inBinarySubnet a (x20, x00) 3 ;;
  if global then Ok true
  else if isMulticast a
  then scope <- getMulticastScope a ;; Ok (byte_to_Z scope =? 0xe)
  else Ok false.

(** [IPAddressV6::isPrivate]. *)
Definition isPrivate (a : IPAddressV6) : result bool :=
  v4priv <- (if isIPv4Mapped a
             then v4 <- createIPv4 a ;; Ok (isPrivateV4 v4)
             else Ok false) ;;
  if v4priv then Ok true
  else
    loop <- isLoopback a ;;
    if loop then Ok true else inBinarySubnet a (xfc, x00) 7.

(** [IPAddressV6::getNthMSByte]. *)
Definition getNthMSByte (a : IPAddressV6) (byteIndex : N) : std_result byte :=
  let highestIndex := (byteCount - 1)%N in
  if (highestIndex <? byteIndex)%N then
    StdThrow (invalid_argument
                ("Byte index must be <= " ++ dec highestIndex ++
                 " for addresses of type :" ++ familyNameStr_AF_INET6)%string)
  else
    Value (rd (bytes a) (N.to_nat byteIndex)).

End Predicates.

(* ================================================================= *)
(** ** Construction from text *)

(** [s.front()] and [s.back()] of a non-empty string. *)
Definition front (s : string) : option ascii := String.get 0 s.

Definition back (s : string) : option ascii :=
  String.get (String.length s - 1) s.

(** [s.front() == '[' && s.back() == ']']. *)
Definition bracketed (s : string) : bool :=
  match front s, back s with
  | Some f, Some b => Ascii.eqb f "["%char && Ascii.eqb b "]"%char
  | _, _ => false
  end.

(** What a C function reads at [s.c_str()]: the characters before the
    first NUL. *)
Fixpoint c_str (s : string) : string :=
  match s with
  | EmptyString => EmptyString
  | String c t => if Ascii.eqb c Ascii.zero then EmptyString
                  else String c (c_str t)
  end.

(** [INET6_ADDRSTRLEN] of [netinet/in.h]. *)
Definition INET6_ADDRSTRLEN : nat := 46.

Section Text.

(** [getaddrinfo(node, nullptr, &hints, &result)] under the hints the
    constructor sets ([AF_INET6], [SOCK_STREAM], [AI_NUMERICHOST]): the
    [sockaddr_in6] of the first result when it returns 0, [None] when it
    returns an error code. *)
Variable getaddrinfo : string -> option sockaddr_in6.

(** [inet_pton(AF_INET6, src, &addr)]: its return value. *)
Variable inet_pton : string -> Z.

(** [IPAddressV6::validate]. *)
Definition validate (ip : string) : bool :=
  let ip := if (0 <? String.length ip)%nat && bracketed ip
            then substring 1 (String.length ip - 2) ip
            else ip in
  let kStrMaxLen := INET6_ADDRSTRLEN in
  let len := Nat.min (String.length ip) kStrMaxLen in
  let ip_cstr := substring 0 len ip in
  1 =? inet_pton (c_str ip_cstr).

(** [IPAddressV6::IPAddressV6(StringPiece)]. *)
Definition IPAddressV6_of_string (addr : string) : result IPAddressV6 :=
  let ip := addr in
  if (String.length ip <? 2)%nat then
    Throw (IPAddressFormatException
             ("Invalid IPv6 address '" ++ ip ++ "': address too short")%string)
  else
    let ip := if bracketed ip
              then substring 1 (String.length ip - 2) ip
              else ip in
    match getaddrinfo (c_str ip) with
    | Some ipAddr =>
        Ok (mkIPAddressV6 (sin6_addr ipAddr) (u16 (sin6_scope_id ipAddr)))
    | None =>
        Throw (IPAddressFormatException
                 ("Invalid IPv6 address '" ++ ip ++ "'")%string)
    end.

End Text.

(** A resolver that knows the literal [::1] only, for the examples. *)
Definition sample_getaddrinfo (node : string) : option sockaddr_in6 :=
  if String.eqb node "::1"
  then Some (mkSockaddrIn6 (BA x00 x00 x00 x00 x00 x00 x00 x00
                               x00 x00 x00 x00 x00 x00 x00 x01) 0)
  else None.

(** An [inet_pton] that accepts the literal [::1] only, for the examples. *)
Definition sample_inet_pton (src : string) : Z :=
  if String.eqb src "::1" then 1 else 0.

(* ================================================================= *)
(** * Properties *)

(** ** Bytes *)

Lemma byte_to_Z_range (b : byte) : 0 <= byte_to_Z b < 256.
Proof.
  unfold byte_to_Z. pose proof (Byte.to_N_bounded b). lia.
Qed.

Lemma Z_to_byte_to_Z (b : byte) : Z_to_byte (byte_to_Z b) = b.
Proof.
  unfold Z_to_byte, u8.
  rewrite Z.mod_small by (change (2 ^ 8) with 256; apply byte_to_Z_range).
  unfold byte_to_Z. rewrite N2Z.id, Byte.of_to_N. reflexivity.
Qed.

Lemma byte_to_Z_to_byte (z : Z) : byte_to_Z (Z_to_byte z) = u8 z.
Proof.
  unfold Z_to_byte, byte_to_Z.
  assert (R : 0 <= u8 z < 256) by (unfold u8; apply Z.mod_pos_bound; lia).
  destruct (Byte.of_N (Z.to_N (u8 z))) as [b|] eqn:E.
  - apply Byte.to_of_N in E. rewrite E. lia.
  - apply Byte.of_N_None_iff in E. lia.
Qed.

Lemma byte_to_Z_inj (a b : byte) : byte_to_Z a = byte_to_Z b -> a = b.
Proof.
  intros H. rewrite <- (Z_to_byte_to_Z a), <- (Z_to_byte_to_Z b), H.
  reflexivity.
Qed.

Lemma byte_and_comm (a b : byte) : byte_and a b = byte_and b a.
Proof. unfold byte_and. rewrite Z.land_comm. reflexivity. Qed.

Lemma byte_bits_high (b : byte) (i : Z) :
  8 <= i -> Z.testbit (byte_to_Z b) i = false.
Proof.
  intros Hi. pose proof (byte_to_Z_range b) as R.
  destruct (Z.eq_dec (byte_to_Z b) 0) as [E|E].
  - rewrite E. apply Z.bits_0.
  - apply Z.bits_above_log2; [lia|].
    apply Z.lt_le_trans with 8; [|exact Hi].
    apply Z.log2_lt_pow2; lia.
Qed.

(** A non-negative integer with no bit set from position 8 on is left
    alone by the conversion to [uint8_t]. *)
Lemma u8_small_bits (z : Z) :
  (forall i, 8 <= i -> Z.testbit z i = false) -> u8 z = z.
Proof.
  intros H. unfold u8. rewrite <- Z.land_ones by lia.
  apply Z.bits_inj'. intros n Hn.
  rewrite Z.land_spec, Z.testbit_ones_nonneg by lia.
  destruct (Z.ltb_spec n 8) as [L|L].
  - apply andb_true_r.
  - rewrite (H n L). reflexivity.
Qed.

(** Neither [&] nor [^] on two bytes leaves the range of a byte: the
    truncation on storing the result loses nothing. *)
Lemma byte_and_val (a b : byte) :
  byte_to_Z (byte_and a b) = Z.land (byte_to_Z a) (byte_to_Z b).
Proof.
  unfold byte_and. rewrite byte_to_Z_to_byte. apply u8_small_bits.
  intros i Hi. rewrite Z.land_spec, !byte_bits_high by exact Hi.
  reflexivity.
Qed.

Lemma byte_xor_val (a b : byte) :
  byte_to_Z (byte_xor a b) = Z.lxor (byte_to_Z a) (byte_to_Z b).
Proof.
  unfold byte_xor. rewrite byte_to_Z_to_byte. apply u8_small_bits.
  intros i Hi. rewrite Z.lxor_spec, !byte_bits_high by exact Hi.
  reflexivity.
Qed.

(** ** Words *)

(** [(hi << k) | lo] is [hi * 2^k + lo] when [lo] fits in [k] bits. *)
Lemma lor_shiftl_add (hi lo k : Z) :
  0 <= k -> 0 <= lo < 2 ^ k ->
  Z.lor (Z.shiftl hi k) lo = hi * 2 ^ k + lo.
Proof.
  intros Hk Hlo.
  assert (D : Z.land (Z.shiftl hi k) lo = 0).
  { apply Z.bits_inj'. intros n Hn.
    rewrite Z.land_spec, Z.bits_0.
    destruct (Z.ltb_spec n k) as [L|L].
    - rewrite Z.shiftl_spec_low by exact L. reflexivity.
    - destruct (Z.eq_dec lo 0) as [E|E].
      + rewrite E, Z.bits_0. apply andb_false_r.
      + rewrite (Z.bits_above_log2 lo n); [apply andb_false_r | lia |].
        apply Z.lt_le_trans with k; [|exact L].
        apply Z.log2_lt_pow2; lia. }
  rewrite <- Z.lxor_lor by exact D.
  rewrite <- Z.add_nocarry_lxor by exact D.
  rewrite Z.shiftl_mul_pow2 by exact Hk. reflexivity.
Qed.

(** The value [unpack] returns: its second argument is the high byte. *)
Lemma unpack_val (lobyte hibyte : byte) :
  unpack lobyte hibyte = byte_to_Z hibyte * 256 + byte_to_Z lobyte.
Proof.
  pose proof (byte_to_Z_range lobyte) as Rl.
  pose proof (byte_to_Z_range hibyte) as Rh.
  unfold unpack, u16.
  rewrite (Z.mod_small (byte_to_Z hibyte)), (Z.mod_small (byte_to_Z lobyte))
    by lia.
  rewrite lor_shiftl_add by lia.
  change (2 ^ 8) with 256. apply Z.mod_small. lia.
Qed.

Lemma unpack_lor (lobyte hibyte : byte) :
  unpack lobyte hibyte
  = Z.lor (Z.shiftl (byte_to_Z hibyte) 8) (byte_to_Z lobyte).
Proof.
  pose proof (byte_to_Z_range lobyte) as Rl.
  rewrite unpack_val, lor_shiftl_add by lia. reflexivity.
Qed.



(** ** The mask table *)

Lemma forallb_below (P : nat -> bool) (k : nat) :
  forallb P (seq 0 k) = true -> forall i, (i < k)%nat -> P i = true.
Proof.
  intros H i Hi. rewrite forallb_forall in H. apply H.
  apply in_seq. lia.
Qed.

Lemma bytes_eqb_eq (p q : list byte) : bytes_eqb p q = true -> p = q.
Proof.
  revert q. induction p as [|x p IH]; intros [|y q] H; simpl in H;
    try discriminate; [reflexivity|].
  apply andb_true_iff in H. destruct H as [Hx Hp].
  apply Byte.byte_dec_bl in Hx. rewrite Hx, (IH q Hp). reflexivity.
Qed.

(** Every entry of the table passes the check. *)
Lemma masks_checked : forallb mask_entry_ok (seq 0 129) = true.
Proof. vm_compute. reflexivity. Qed.

(** Beyond /128 there is no entry to fetch. *)
Lemma fetchMask_out_of_range (n : N) :
  (128 < n)%N ->
  fetchMask n = Throw (IPAddressFormatException "IPv6 addresses are 128 bits.").
Proof.
  intros H. unfold fetchMask, bitCount.
  destruct (N.ltb_spec 128 n) as [L|L]; [reflexivity | lia].
Qed.

(** C1. For every prefix length [n <= 128], [fetchMask n] returns a
    16-byte mask whose first [n] bits, most significant first, are one and
    whose other [128 - n] bits are zero; equivalently its bytes are
    [n / 8] times [0xFF], then one byte with the top [n mod 8] bits set
    when [n mod 8] is not zero, then zero bytes. *)
Theorem fetchMask_correct (n : N) :
  (n <= 128)%N ->
  exists m : ByteArray16,
    fetchMask n = Ok m /\
    List.length (to_list m) = 16%nat /\
    (forall i, (i < 128)%nat -> bit_msb m i = (i <? N.to_nat n)%nat) /\
    to_list m = spec_mask_bytes (N.to_nat n).
Proof.
  intros Hn.
  assert (C : mask_entry_ok (N.to_nat n) = true)
    by (apply (forallb_below _ 129 masks_checked); lia).
  unfold mask_entry_ok in C. rewrite N2Nat.id in C.
  destruct (fetchMask n) as [m| |]; try discriminate.
  apply andb_true_iff in C. destruct C as [Cbits Cbytes].
  exists m. repeat split.
  - intros i Hi. apply eqb_prop.
    exact (forallb_below _ 128 Cbits i Hi).
  - apply bytes_eqb_eq. exact Cbytes.
Qed.

(** /20 is [ff ff f0 00 ... 00]. *)
Lemma fetchMask_correct_witness :
  (20 <= 128)%N /\
  exists m : ByteArray16,
    fetchMask 20 = Ok m /\
    List.length (to_list m) = 16%nat /\
    (forall i, (i < 128)%nat -> bit_msb m i = (i <? N.to_nat 20)%nat) /\
    to_list m = spec_mask_bytes (N.to_nat 20).
Proof.
  split; [lia | apply (fetchMask_correct 20); lia].
Defined.

Example fetchMask_20 :
  fetchMask 20 = Ok (BA xff xff xf0 x00 x00 x00 x00 x00
                        x00 x00 x00 x00 x00 x00 x00 x00).
Proof. reflexivity. Qed.

Example spec_mask_bytes_20 :
  spec_mask_bytes 20 = [xff; xff; xf0; x00; x00; x00; x00; x00;
                        x00; x00; x00; x00; x00; x00; x00; x00].
Proof. reflexivity. Qed.

(** ** Masking an address *)

Lemma Bytes_mask_at (m b : ByteArray16) (i : nat) :
  (i < 16)%nat ->
  at_ (Bytes_mask m b) i = byte_and (at_ b i) (at_ m i).
Proof.
  intros Hi. destruct m, b.
  do 16 (destruct i as [|i]; [apply byte_and_comm|]).
  lia.
Qed.

Lemma mask_in_range (a : IPAddressV6) (numBits : N) :
  (numBits <= 128)%N ->
  mask a numBits
  = Ok (IPAddressV6_of_bytes
          (Bytes_mask (nth (N.to_nat numBits) masks_ zero16) (addr_ a))).
Proof.
  intros H. unfold mask, fetchMask, bitCount.
  destruct (N.ltb_spec 128 numBits) as [L|L]; [lia | reflexivity].
Qed.

Lemma mask_out_of_range (a : IPAddressV6) (numBits : N) :
  (128 < numBits)%N ->
  mask a numBits
  = Throw (IPAddressFormatException
             ("numBits(" ++ dec numBits ++ ") > bitCount(128)")%string).
Proof.
  intros H. unfold mask, bitCount.
  destruct (N.ltb_spec 128 numBits) as [L|L]; [reflexivity | lia].
Qed.

(** C2. [mask a numBits] throws, and what it throws is the
    [IPAddressFormatException] that reports the prefix length, exactly when
    [numBits > 128]; when [numBits <= 128] it returns, and byte [i] of the
    result is byte [i] of [a] AND byte [i] of [fetchMask numBits]. *)
Theorem mask_spec (a : IPAddressV6) (numBits : N) :
  (throws_format (mask a numBits) <-> (128 < numBits)%N) /\
  ((128 < numBits)%N ->
   mask a numBits
   = Throw (IPAddressFormatException
              ("numBits(" ++ dec numBits ++ ") > bitCount(128)")%string)) /\
  (returns (mask a numBits) <-> (numBits <= 128)%N) /\
  (forall r, mask a numBits = Ok r ->
     exists m, fetchMask numBits = Ok m /\
       forall i, (i < 16)%nat ->
         at_ (addr_ r) i = byte_and (at_ (addr_ a) i) (at_ m i) /\
         byte_to_Z (at_ (addr_ r) i)
         = Z.land (byte_to_Z (at_ (addr_ a) i)) (byte_to_Z (at_ m i))).
Proof.
  destruct (N.ltb_spec 128 numBits) as [L|L].
  - pose proof (mask_out_of_range a numBits L) as E.
    repeat split; intros; try lia; try congruence.
    + eexists; exact E.
    + destruct H as [r Hr]. congruence.
  - pose proof (mask_in_range a numBits L) as E.
    repeat split; intros; try lia.
    + destruct H as [w Hw]. congruence.
    + eexists; exact E.
    + rewrite E in H. injection H as <-.
      exists (nth (N.to_nat numBits) masks_ zero16). split.
      * unfold fetchMask, bitCount.
        destruct (N.ltb_spec 128 numBits); [lia | reflexivity].
      * intros i Hi. rewrite <- byte_and_val. split; [|f_equal];
          apply (Bytes_mask_at _ _ i Hi).
Qed.

(** 2001:db8:1234:5678::1, scope 7, under /200 and under /40. *)
Lemma mask_spec_witness :
  mask addr_2001_db8 200
  = Throw (IPAddressFormatException "numBits(200) > bitCount(128)") /\
  exists m, fetchMask 40 = Ok m /\
    forall i, (i < 16)%nat ->
      at_ (BA x20 x01 x0d xb8 x12 x00 x00 x00
              x00 x00 x00 x00 x00 x00 x00 x00) i
      = byte_and (at_ (addr_ addr_2001_db8) i) (at_ m i) /\
      byte_to_Z (at_ (BA x20 x01 x0d xb8 x12 x00 x00 x00
                         x00 x00 x00 x00 x00 x00 x00 x00) i)
      = Z.land (byte_to_Z (at_ (addr_ addr_2001_db8) i)) (byte_to_Z (at_ m i)).
Proof.
  split.
  - apply (proj1 (proj2 (mask_spec addr_2001_db8 200))). reflexivity.
  - apply (proj2 (proj2 (proj2 (mask_spec addr_2001_db8 40)))
             (mkIPAddressV6 (BA x20 x01 x0d xb8 x12 x00 x00 x00
                                x00 x00 x00 x00 x00 x00 x00 x00) 0)).
    reflexivity.
Defined.

(** A nonzero scope id comes with the [sockaddr_in6] an address is built
    from. *)
Example scope_from_sockaddr :
  IPAddressV6_of_sockaddr (mkSockaddrIn6 (addr_ addr_2001_db8) 7)
  = addr_2001_db8.
Proof. reflexivity. Qed.

(** C10. For [numBits <= 128] the address [mask a numBits] returns has
    scope id 0, whatever the scope id of [a]: the result is rebuilt from
    the masked bytes alone. *)
Theorem mask_resets_scope (a : IPAddressV6) (numBits : N) :
  (numBits <= 128)%N ->
  exists r, mask a numBits = Ok r /\ scope_ r = 0.
Proof.
  intros H. rewrite (mask_in_range a numBits H).
  eexists. split; reflexivity.
Qed.

Lemma mask_resets_scope_witness :
  scope_ addr_2001_db8 = 7 /\
  (40 <= 128)%N /\
  exists r, mask addr_2001_db8 40 = Ok r /\ scope_ r = 0.
Proof.
  split; [reflexivity|]. split; [lia|].
  apply (mask_resets_scope addr_2001_db8 40). lia.
Defined.

(** ** Classification *)

(** The two words [type] compares, for the four leading bytes. *)
Lemma type_unfold (a : IPAddressV6) :
  type a =
  if byte_to_Z (by0 (addr_ a)) * 2 ^ 24 + byte_to_Z (by1 (addr_ a)) * 2 ^ 16
     + byte_to_Z (by2 (addr_ a)) * 2 ^ 8 + byte_to_Z (by3 (addr_ a))
     =? PREFIX_TEREDO
  then TEREDO
  else if byte_to_Z (by0 (addr_ a)) * 2 ^ 8 + byte_to_Z (by1 (addr_ a))
          =? PREFIX_6TO4
  then T6TO4
  else NORMAL.
Proof.
  destruct a as [[b0 b1 b2 b3 b4 b5 b6 b7 b8 b9 b10 b11 b12 b13 b14 b15] sc].
  unfold type, bytes, unpackInto, word. cbn [to_list addr_ unpackInto_loop
    upd rd nth Nat.add by0 by1 by2 by3].
  rewrite !unpack_val.
  pose proof (byte_to_Z_range b0). pose proof (byte_to_Z_range b1).
  pose proof (byte_to_Z_range b2). pose proof (byte_to_Z_range b3).
  unfold u32.
  rewrite (Z.mod_small (byte_to_Z b0 * 256 + byte_to_Z b1)) by lia.
  rewrite Z.shiftl_mul_pow2 by lia.
  rewrite (Z.mod_small ((byte_to_Z b0 * 256 + byte_to_Z b1) * 2 ^ 16)) by lia.
  rewrite <- Z.shiftl_mul_pow2 by lia.
  rewrite lor_shiftl_add by lia.
  replace ((byte_to_Z b0 * 256 + byte_to_Z b1) * 2 ^ 16
           + (byte_to_Z b2 * 256 + byte_to_Z b3))
    with (byte_to_Z b0 * 2 ^ 24 + byte_to_Z b1 * 2 ^ 16
          + byte_to_Z b2 * 2 ^ 8 + byte_to_Z b3) by lia.
  reflexivity.
Qed.

Lemma byte_is (b c : byte) : byte_to_Z b = byte_to_Z c <-> b = c.
Proof. split; [apply byte_to_Z_inj | congruence]. Qed.

Lemma type_TEREDO_iff (a : IPAddressV6) :
  type a = TEREDO <-> has_teredo_prefix a.
Proof.
  rewrite type_unfold. unfold has_teredo_prefix, PREFIX_TEREDO, PREFIX_6TO4.
  rewrite <- !byte_is.
  change (byte_to_Z x20) with 32. change (byte_to_Z x01) with 1.
  change (byte_to_Z x00) with 0.
  pose proof (byte_to_Z_range (by0 (addr_ a))).
  pose proof (byte_to_Z_range (by1 (addr_ a))).
  pose proof (byte_to_Z_range (by2 (addr_ a))).
  pose proof (byte_to_Z_range (by3 (addr_ a))).
  repeat match goal with
         | |- context [?x =? ?y] => destruct (Z.eqb_spec x y)
         end; split; intros; try discriminate; try reflexivity; lia.
Qed.

Lemma type_T6TO4_iff (a : IPAddressV6) :
  type a = T6TO4 <-> has_6to4_prefix a.
Proof.
  rewrite type_unfold. unfold has_6to4_prefix, PREFIX_TEREDO, PREFIX_6TO4.
  rewrite <- !byte_is.
  change (byte_to_Z x20) with 32. change (byte_to_Z x02) with 2.
  pose proof (byte_to_Z_range (by0 (addr_ a))).
  pose proof (byte_to_Z_range (by1 (addr_ a))).
  pose proof (byte_to_Z_range (by2 (addr_ a))).
  pose proof (byte_to_Z_range (by3 (addr_ a))).
  repeat match goal with
         | |- context [?x =? ?y] => destruct (Z.eqb_spec x y)
         end; split; intros; try discriminate; try reflexivity; lia.
Qed.

(** C3. [type a] is [TEREDO] exactly when bytes 0..3 of [a] are
    [20 01 00 00]; it is [T6TO4] exactly when [a] is not classified
    Teredo and bytes 0..1 are [20 02]; it is [NORMAL] in every other case;
    and no address is classified both [TEREDO] and [T6TO4]. *)
Theorem type_spec (a : IPAddressV6) :
  (type a = TEREDO <-> has_teredo_prefix a) /\
  (type a = T6TO4 <-> type a <> TEREDO /\ has_6to4_prefix a) /\
  (type a = NORMAL <-> ~ has_teredo_prefix a /\ ~ has_6to4_prefix a) /\
  ~ (type a = TEREDO /\ type a = T6TO4).
Proof.
  pose proof (type_TEREDO_iff a) as HT.
  pose proof (type_T6TO4_iff a) as HS.
  split; [exact HT|]. split; [|split].
  - split.
    + intros H. split; [congruence | apply HS; exact H].
    + intros [_ H]. apply HS. exact H.
  - split.
    + intros H. split; intros H2; [apply HT in H2 | apply HS in H2];
        congruence.
    + intros [H1 H2]. destruct (type a).
      * exfalso. apply H1, HT. reflexivity.
      * exfalso. apply H2, HS. reflexivity.
      * reflexivity.
  - intros [H1 H2]. congruence.
Qed.

Example type_teredo :
  type (mkIPAddressV6 (BA x20 x01 x00 x00 x41 x36 xe3 x78
                          x80 x00 x63 xbf x3f xff xfd xd2) 0) = TEREDO.
Proof. reflexivity. Qed.

Example type_6to4 :
  type (mkIPAddressV6 (BA x20 x02 xc0 x00 x02 x01 x00 x00
                          x00 x00 x00 x00 x00 x00 x00 x01) 0) = T6TO4.
Proof. reflexivity. Qed.

Example type_normal : type addr_2001_db8 = NORMAL.
Proof. reflexivity. Qed.

(** ** Word unpacking *)

Lemma length_upd {A : Type} (l : list A) (i : nat) (v : A) :
  List.length (upd l i v) = List.length l.
Proof.
  revert i. induction l as [|h t IH]; intros [|i]; simpl; auto.
Qed.

Lemma word_upd (l : list Z) (i j : nat) (v : Z) :
  (i < List.length l)%nat ->
  word (upd l i v) j = if (j =? i)%nat then v else word l j.
Proof.
  unfold word. revert i j.
  induction l as [|h t IH]; intros i j Hi; simpl in Hi; [lia|].
  destruct i as [|i], j as [|j]; simpl; try reflexivity.
  apply IH. lia.
Qed.

(** The loop invariant: after the remaining [n] iterations, the words
    [i0 .. i0 + n - 1] have been written and the others are untouched. *)
Lemma unpackInto_loop_word (src : list byte) (n : nat) :
  forall (dest : list Z) (i0 j : nat),
    (i0 + n <= List.length dest)%nat ->
    word (unpackInto_loop src dest n i0 (2 * i0 + 1) (2 * i0)) j
    = if ((i0 <=? j) && (j <? i0 + n))%nat
      then unpack (rd src (2 * j + 1)) (rd src (2 * j))
      else word dest j.
Proof.
  induction n as [|n IH]; intros dest i0 j Hlen.
  - simpl. destruct (Nat.leb_spec i0 j), (Nat.ltb_spec j (i0 + 0));
      simpl; try reflexivity; lia.
  - cbn [unpackInto_loop].
    replace (2 * i0 + 1 + 2)%nat with (2 * (i0 + 1) + 1)%nat by lia.
    replace (2 * i0 + 2)%nat with (2 * (i0 + 1))%nat by lia.
    rewrite IH by (rewrite length_upd; lia).
    rewrite word_upd by lia.
    destruct (Nat.leb_spec (i0 + 1) j), (Nat.ltb_spec j (i0 + 1 + n)),
      (Nat.eqb_spec j i0), (Nat.leb_spec i0 j), (Nat.ltb_spec j (i0 + S n));
      simpl; try reflexivity; try lia.
    subst j. reflexivity.
Qed.

(** C4, as the code has it.  Word [i] written by [unpackInto] is
    [(src[2i] << 8) | src[2i+1]]: [src[2i]] is the high byte and
    [src[2i+1]] the low byte, the network order of the buffer.  The helper
    passes [src[hi]] with [hi = 2i+1] in the [lobyte] position of [unpack]
    and [src[lo]] with [lo = 2i] in the [hibyte] position. *)
Theorem unpackInto_words (src : list byte) (dest : list Z) (count i : nat) :
  (i < count)%nat -> (count <= List.length dest)%nat ->
  word (unpackInto src dest count) i = word_hi_lo src i.
Proof.
  intros Hi Hc. unfold unpackInto.
  pose proof (unpackInto_loop_word src count dest 0 i) as L.
  change (2 * 0 + 1)%nat with 1%nat in L. change (2 * 0)%nat with 0%nat in L.
  rewrite L by exact Hc.
  change (0 <=? i)%nat with true. cbn [andb].
  destruct (Nat.ltb_spec i (0 + count)) as [_|F]; [|lia].
  apply unpack_lor.
Qed.

Lemma unpackInto_words_witness :
  (0 < 2)%nat /\ (2 <= List.length [0; 0])%nat /\
  word (unpackInto (bytes addr_2001_db8) [0; 0] 2) 0
  = word_hi_lo (bytes addr_2001_db8) 0.
Proof.
  split; [lia|]. split; [simpl; lia|].
  apply (unpackInto_words (bytes addr_2001_db8) [0; 0] 2 0); simpl; lia.
Defined.

(** C4 with the bytes the other way round, [(src[2i+1] << 8) | src[2i]],
    does not hold: on the leading bytes [20 01 00 00] of a Teredo address,
    word 0 is [0x2001], whereas [(src[1] << 8) | src[0]] is [0x0120]. *)
Lemma unpackInto_not_lo_hi :
  ~ (forall (src : list byte) (dest : list Z) (count i : nat),
        (i < count)%nat -> (count <= List.length dest)%nat ->
        word (unpackInto src dest count) i = word_lo_hi src i).
Proof.
  intros H.
  specialize (H [x20; x01; x00; x00] [0; 0] 2%nat 0%nat).
  assert (E : word (unpackInto [x20; x01; x00; x00] [0; 0] 2) 0 = 0x2001)
    by reflexivity.
  assert (F : word_lo_hi [x20; x01; x00; x00] 0 = 0x0120) by reflexivity.
  rewrite E, F in H.
  assert (C : 0x2001 = 0x0120) by (apply H; simpl; lia).
  discriminate C.
Qed.

(** ** The IPv4 address of a 6to4 address *)

Lemma is6To4_iff (a : IPAddressV6) : is6To4 a = true <-> type a = T6TO4.
Proof.
  unfold is6To4. destruct (type a); simpl; split; congruence.
Qed.


(** On any other address the call throws: the [TypeError] when [str()]
    rendered the address for the message, and what [str()] threw
    otherwise. *)
Lemma getIPv4For6To4_other
      (getnameinfo : sockaddr_in6 -> option string)
      (toHex : list byte -> string) (a : IPAddressV6) :
  type a <> T6TO4 ->
  getIPv4For6To4 getnameinfo toHex a
  = match getnameinfo (toSockAddr a) with
    | Some s =>
        Throw (TypeError ("Invalid IP '" ++ s ++ "': not a 6to4 address")
                         %string)
    | None =>
        Throw (IPAddressFormatException
                 ("Invalid address with hex '" ++ toHex (bytes a) ++ "'")
                 %string)
    end.
Proof.
  intros H.
  assert (E : is6To4 a = false).
  { destruct (is6To4 a) eqn:E; [|reflexivity].
    apply is6To4_iff in E. contradiction. }
  unfold getIPv4For6To4, str. rewrite E. cbn [negb].
  destruct (getnameinfo (toSockAddr a)); reflexivity.
Qed.




(** ** The link-local address of a MAC address *)

(** C6. For every MAC address [m] the link-local constructor yields bytes
    [fe 80 00 00 00 00 00 00], then [m[0] ^ 0x02], [m[1]], [m[2]],
    [ff fe], [m[3]], [m[4]], [m[5]], whatever the storage held before;
    MAC 00:11:22:33:44:55 yields fe80::0211:22ff:fe33:4455. *)
Theorem link_local_spec (uninit : ByteArray16) (m : MacAddress) :
  bytes (IPAddressV6_link_local uninit m)
  = [ xfe; x80; x00; x00; x00; x00; x00; x00;
      byte_xor (mac0 m) x02; mac1 m; mac2 m; xff; xfe;
      mac3 m; mac4 m; mac5 m ] /\
  byte_to_Z (by8 (addr_ (IPAddressV6_link_local uninit m)))
  = Z.lxor (byte_to_Z (mac0 m)) 0x02 /\
  bytes (IPAddressV6_link_local uninit mac_001122334455)
  = [ xfe; x80; x00; x00; x00; x00; x00; x00;
      x02; x11; x22; xff; xfe; x33; x44; x55 ].
Proof.
  destruct uninit, m. split; [reflexivity|]. split; [|reflexivity].
  cbn [IPAddressV6_link_local addr_ mac0].
  apply (byte_xor_val _ x02).
Qed.

(** ** The solicited-node address *)

(** C7. For every non-multicast address [a], in a debug as in a release
    build, [getSolicitedNodeAddress] returns ff02::1:ffXX:XXXX: bytes
    0..12 are [ff 02 00 00 00 00 00 00 00 00 00 01 ff] and bytes 13, 14,
    15 are those of [a]. *)
Theorem getSolicitedNodeAddress_spec (ndebug : bool) (a : IPAddressV6) :
  isMulticast a = false ->
  exists r,
    getSolicitedNodeAddress ndebug a = Ok r /\
    bytes r = [ xff; x02; x00; x00; x00; x00; x00; x00;
                x00; x00; x00; x01; xff;
                by13 (addr_ a); by14 (addr_ a); by15 (addr_ a) ].
Proof.
  intros H. unfold getSolicitedNodeAddress, DCHECK. rewrite H.
  rewrite orb_true_r. cbn [bind negb].
  destruct a as [[b0 b1 b2 b3 b4 b5 b6 b7 b8 b9 b10 b11 b12 b13 b14 b15] sc].
  eexists. split; reflexivity.
Qed.

(** fe80::1234:5678 gives ff02::1:ff34:5678. *)
Lemma getSolicitedNodeAddress_spec_witness :
  isMulticast addr_fe80 = false /\
  exists r,
    getSolicitedNodeAddress false addr_fe80 = Ok r /\
    bytes r = [ xff; x02; x00; x00; x00; x00; x00; x00;
                x00; x00; x00; x01; xff; x34; x56; x78 ].
Proof.
  split; [reflexivity|].
  apply (getSolicitedNodeAddress_spec false addr_fe80). reflexivity.
Defined.

(** ** Construction from a binary buffer *)

Lemma to_list_memcpy16 (b : list byte) :
  List.length b = 16%nat -> to_list (memcpy16 b) = b.
Proof.
  intros H.
  do 16 (destruct b as [|? b]; [discriminate H|]).
  destruct b; [reflexivity | discriminate H].
Qed.

Lemma setFromBinary_16 (this : IPAddressV6) (b : list byte) :
  List.length b = 16%nat ->
  setFromBinary this b = Ok (mkIPAddressV6 (memcpy16 b) 0).
Proof.
  intros H. unfold setFromBinary. rewrite H. reflexivity.
Qed.

Lemma setFromBinary_other (this : IPAddressV6) (b : list byte) :
  List.length b <> 16%nat ->
  setFromBinary this b
  = Throw (IPAddressFormatException
             ("Invalid IPv6 binary data: length must be 16 bytes, got "
              ++ dec (N.of_nat (List.length b)))%string).
Proof.
  intros H. unfold setFromBinary.
  destruct (N.eqb_spec (N.of_nat (List.length b)) 16) as [E|E]; [lia|].
  reflexivity.
Qed.

(** C8. Building an address from a byte sequence [b] returns exactly when
    [b] has 16 bytes and throws an [IPAddressFormatException] otherwise,
    whether through [fromBinary] or through [setFromBinary] on an existing
    address; the address built has [b] as its buffer and scope id 0. *)
Theorem fromBinary_spec (this : IPAddressV6) (b : list byte) :
  setFromBinary this b = fromBinary b /\
  (returns (fromBinary b) <-> List.length b = 16%nat) /\
  (throws_format (fromBinary b) <-> List.length b <> 16%nat) /\
  (forall a, fromBinary b = Ok a -> bytes a = b /\ scope_ a = 0).
Proof.
  unfold fromBinary.
  destruct (Nat.eq_dec (List.length b) 16) as [E|E].
  - rewrite !(setFromBinary_16 _ b E).
    split; [reflexivity|]. split; [|split].
    + split; [intros _; exact E | intros _; eexists; reflexivity].
    + split; [intros [w Hw]; discriminate | contradiction].
    + intros a Ha. injection Ha as <-. split; [|reflexivity].
      apply to_list_memcpy16, E.
  - rewrite !(setFromBinary_other _ b E).
    split; [reflexivity|]. split; [|split].
    + split; [intros [a Ha]; discriminate | contradiction].
    + split; [intros _; exact E | intros _; eexists; reflexivity].
    + intros a Ha. discriminate.
Qed.

(** The 16 bytes of fe80::1234:5678 give back that address. *)
Lemma fromBinary_spec_witness :
  fromBinary [ xfe; x80; x00; x00; x00; x00; x00; x00;
               x00; x00; x00; x00; x12; x34; x56; x78 ] = Ok addr_fe80 /\
  bytes addr_fe80 = [ xfe; x80; x00; x00; x00; x00; x00; x00;
                      x00; x00; x00; x00; x12; x34; x56; x78 ] /\
  scope_ addr_fe80 = 0.
Proof.
  split; [reflexivity|].
  apply (proj2 (proj2 (proj2
           (fromBinary_spec addr_2001_db8
              [ xfe; x80; x00; x00; x00; x00; x00; x00;
                x00; x00; x00; x00; x12; x34; x56; x78 ]))) addr_fe80).
  reflexivity.
Defined.

Example fromBinary_short :
  fromBinary [xfe; x80; x00]
  = Throw (IPAddressFormatException
             "Invalid IPv6 binary data: length must be 16 bytes, got 3").
Proof. reflexivity. Qed.

(** ** The hash of an IPv4-mapped address *)

(** The first loop of [isIPv4Mapped] runs to its end exactly when the
    bytes it visits are all zero. *)
Lemma nonzero_within_false (p : list byte) (n : nat) :
  forall i,
    nonzero_within p i n = false <->
    (forall k, (i <= k < i + n)%nat -> rd p k = x00).
Proof.
  induction n as [|n IH]; intros i; cbn [nonzero_within].
  - split; [intros _ k Hk; lia | reflexivity].
  - destruct (Z.eqb_spec (byte_to_Z (rd p i)) 0x00) as [E|E]; cbn [negb].
    + apply (byte_to_Z_inj _ x00) in E. rewrite IH. split.
      * intros H k Hk. destruct (Nat.eq_dec k i) as [->|D]; [exact E|].
        apply H. lia.
      * intros H k Hk. apply H. lia.
    + split; [discriminate|]. intros H. exfalso. apply E.
      rewrite (H i) by lia. reflexivity.
Qed.

Lemma isIPv4Mapped_iff (a : IPAddressV6) :
  isIPv4Mapped a = true <-> has_mapped_prefix a.
Proof.
  unfold isIPv4Mapped, has_mapped_prefix, at_. fold (bytes a).
  destruct (nonzero_within (bytes a) 0 10) eqn:Z10.
  - split; [discriminate|]. intros [H _].
    assert (F : nonzero_within (bytes a) 0 10 = false)
      by (apply nonzero_within_false; intros k Hk; apply H; lia).
    congruence.
  - rewrite nonzero_within_false in Z10.
    change 0xff with (byte_to_Z xff).
    destruct (Z.eqb_spec (byte_to_Z (rd (bytes a) 10)) (byte_to_Z xff))
      as [E1|E1];
      destruct (Z.eqb_spec (byte_to_Z (rd (bytes a) 11)) (byte_to_Z xff))
      as [E2|E2]; cbn [andb]; rewrite byte_is in E1, E2.
    + split; [|reflexivity]. intros _. split; [|split; assumption].
      intros k Hk. apply Z10. lia.
    + split; [discriminate|]. intros (_ & _ & H). contradiction.
    + split; [discriminate|]. intros (_ & H & _). contradiction.
    + split; [discriminate|]. intros (_ & H & _). contradiction.
Qed.

(** C9. An address [a] is IPv4-mapped exactly when bytes 0..9 are zero and
    bytes 10..11 are [ff ff]; for such an address [createIPv4 a] returns
    the IPv4 address made of bytes 12..15, and [hash a] is the IPv4 hash
    of that address, whatever the IPv4 hash function is. *)
Theorem hash_mapped
        (hashV4 : IPAddressV4 -> Z) (AF_INET6 : Z)
        (Hash128 : list byte -> Z -> Z -> Z * Z)
        (hash_combine : Z -> Z -> Z -> Z) (a : IPAddressV6) :
  isIPv4Mapped a = true ->
  has_mapped_prefix a /\
  exists v4,
    createIPv4 a = Ok v4 /\
    v4 = mkIPAddressV4 (by12 (addr_ a)) (by13 (addr_ a))
                       (by14 (addr_ a)) (by15 (addr_ a)) /\
    hash hashV4 AF_INET6 Hash128 hash_combine a = Ok (hashV4 v4).
Proof.
  intros H. split; [apply isIPv4Mapped_iff, H|].
  unfold hash, IPAddress_createIPv4, createIPv4. rewrite H. cbn [negb bind].
  eexists. split; [reflexivity|]. split; reflexivity.
Qed.

Lemma hash_mapped_witness :
  isIPv4Mapped addr_mapped = true /\
  has_mapped_prefix addr_mapped /\
  exists v4,
    createIPv4 addr_mapped = Ok v4 /\
    v4 = mkIPAddressV4 xc0 x00 x02 x01 /\
    hash sample_hashV4 10 sample_Hash128 sample_hash_combine addr_mapped
    = Ok (sample_hashV4 v4).
Proof.
  split; [reflexivity|].
  apply (hash_mapped sample_hashV4 10 sample_Hash128 sample_hash_combine
                     addr_mapped).
  reflexivity.
Defined.

Example hash_mapped_value :
  hash sample_hashV4 10 sample_Hash128 sample_hash_combine addr_mapped
  = Ok 0xc0000201.
Proof. reflexivity. Qed.

Example hash_unmapped_value :
  hash sample_hashV4 10 sample_Hash128 sample_hash_combine addr_fe80
  = Ok 26.
Proof. reflexivity. Qed.

(** ** Bits of a buffer *)

Lemma bytes_eqb_refl (p : list byte) : bytes_eqb p p = true.
Proof.
  induction p as [|x p IH]; [reflexivity|].
  simpl. rewrite IH, (Byte.byte_dec_lb eq_refl). reflexivity.
Qed.

Lemma to_list_inj (x y : ByteArray16) : to_list x = to_list y -> x = y.
Proof.
  destruct x, y. unfold to_list. cbn. intros H.
  injection H as -> -> -> -> -> -> -> -> -> -> -> -> -> -> -> ->.
  reflexivity.
Qed.

Lemma ByteArray16_eqb_eq (x y : ByteArray16) :
  ByteArray16_eqb x y = true <-> x = y.
Proof.
  unfold ByteArray16_eqb. split.
  - intros H. apply to_list_inj, bytes_eqb_eq, H.
  - intros ->. apply bytes_eqb_refl.
Qed.

(** Two buffers with the same byte at every index are equal. *)
Lemma ByteArray16_ext (x y : ByteArray16) :
  (forall k, (k < 16)%nat -> at_ x k = at_ y k) -> x = y.
Proof.
  intros H. apply to_list_inj. destruct x, y. unfold to_list. cbn.
  pose proof (H 0%nat ltac:(lia)). pose proof (H 1%nat ltac:(lia)).
  pose proof (H 2%nat ltac:(lia)). pose proof (H 3%nat ltac:(lia)).
  pose proof (H 4%nat ltac:(lia)). pose proof (H 5%nat ltac:(lia)).
  pose proof (H 6%nat ltac:(lia)). pose proof (H 7%nat ltac:(lia)).
  pose proof (H 8%nat ltac:(lia)). pose proof (H 9%nat ltac:(lia)).
  pose proof (H 10%nat ltac:(lia)). pose proof (H 11%nat ltac:(lia)).
  pose proof (H 12%nat ltac:(lia)). pose proof (H 13%nat ltac:(lia)).
  pose proof (H 14%nat ltac:(lia)). pose proof (H 15%nat ltac:(lia)).
  cbn in *. congruence.
Qed.

(** Two bytes with the same eight bits are equal. *)
Lemma byte_ext (b c : byte) :
  (forall j, 0 <= j < 8 ->
             Z.testbit (byte_to_Z b) j = Z.testbit (byte_to_Z c) j) ->
  b = c.
Proof.
  intros H. apply byte_to_Z_inj, Z.bits_inj'. intros j Hj.
  destruct (Z.ltb_spec j 8) as [L|L].
  - apply H. lia.
  - rewrite !byte_bits_high by exact L. reflexivity.
Qed.

Lemma bit_index (k j : nat) :
  (j < 8)%nat ->
  ((8 * k + (7 - j)) / 8 = k)%nat /\ (7 - (8 * k + (7 - j)) mod 8 = j)%nat.
Proof.
  intros Hj.
  assert (D : ((8 * k + (7 - j)) / 8 = k)%nat)
    by (symmetry; apply (Nat.div_unique _ 8 k (7 - j)); lia).
  assert (M : ((8 * k + (7 - j)) mod 8 = 7 - j)%nat)
    by (symmetry; apply (Nat.mod_unique _ 8 k (7 - j)); lia).
  rewrite M. split; [exact D | lia].
Qed.

Lemma bit_byte_lt (i : nat) : (i < 128)%nat -> (i / 8 < 16)%nat.
Proof.
  intros H. apply Nat.Div0.div_lt_upper_bound. lia.
Qed.

(** Two buffers with the same 128 bits are equal. *)
Lemma bit_msb_ext (x y : ByteArray16) :
  (forall i, (i < 128)%nat -> bit_msb x i = bit_msb y i) -> x = y.
Proof.
  intros H. apply ByteArray16_ext. intros k Hk. apply byte_ext. intros j Hj.
  destruct (bit_index k (Z.to_nat j)) as [D M]; [lia|].
  specialize (H (8 * k + (7 - Z.to_nat j))%nat ltac:(lia)).
  unfold bit_msb in H. rewrite D, M, Z2Nat.id in H by lia. exact H.
Qed.

(** ANDing two buffers ANDs them bit by bit. *)
Lemma bit_msb_Bytes_mask (x y : ByteArray16) (i : nat) :
  (i < 128)%nat ->
  bit_msb (Bytes_mask x y) i = bit_msb x i && bit_msb y i.
Proof.
  intros Hi. unfold bit_msb.
  rewrite (Bytes_mask_at x y (i / 8) (bit_byte_lt i Hi)).
  rewrite byte_and_val, Z.land_spec. apply andb_comm.
Qed.

(** Entry [n] of the table has its first [n] bits set and no other. *)
Lemma masks_bits (n i : nat) :
  (n <= 128)%nat -> (i < 128)%nat ->
  bit_msb (nth n masks_ zero16) i = (i <? n)%nat.
Proof.
  intros Hn Hi.
  assert (C : mask_entry_ok n = true)
    by (apply (forallb_below _ 129 masks_checked); lia).
  unfold mask_entry_ok, fetchMask, bitCount in C.
  destruct (N.ltb_spec 128 (N.of_nat n)) as [L|L]; [lia|].
  rewrite Nat2N.id in C. apply andb_true_iff in C. destruct C as [Cbits _].
  apply eqb_prop. exact (forallb_below _ 128 Cbits i Hi).
Qed.

Lemma fetchMask_in_range (n : N) :
  (n <= 128)%N -> fetchMask n = Ok (nth (N.to_nat n) masks_ zero16).
Proof.
  intros H. unfold fetchMask, bitCount.
  destruct (N.ltb_spec 128 n) as [L|L]; [lia | reflexivity].
Qed.

(** ** Masks and prefixes *)

(** X1. For [n <= 128], [mask a n] returns the address whose first [n]
    bits are those of [a] and whose other bits are clear. *)
Theorem mask_keeps_prefix (a : IPAddressV6) (n : N) :
  (n <= 128)%N ->
  exists r,
    mask a n = Ok r /\
    forall i, (i < 128)%nat ->
      bit_msb (addr_ r) i = (i <? N.to_nat n)%nat && bit_msb (addr_ a) i.
Proof.
  intros Hn. rewrite (mask_in_range a n Hn). eexists. split; [reflexivity|].
  intros i Hi. cbn [IPAddressV6_of_bytes addr_].
  rewrite bit_msb_Bytes_mask by exact Hi.
  rewrite masks_bits by lia. reflexivity.
Qed.

Lemma mask_keeps_prefix_witness :
  (40 <= 128)%N /\
  exists r,
    mask addr_2001_db8 40 = Ok r /\
    forall i, (i < 128)%nat ->
      bit_msb (addr_ r) i
      = (i <? N.to_nat 40)%nat && bit_msb (addr_ addr_2001_db8) i.
Proof.
  split; [lia | apply (mask_keeps_prefix addr_2001_db8 40); lia].
Defined.

(** X2. Masking twice is masking once with the shorter prefix:
    [a.mask(n).mask(k)] is [a.mask(min(n, k))]; in particular masking is
    idempotent. *)
Theorem mask_mask (a : IPAddressV6) (n k : N) :
  (n <= 128)%N -> (k <= 128)%N ->
  exists r, mask a n = Ok r /\ mask r k = mask a (N.min n k).
Proof.
  intros Hn Hk. rewrite (mask_in_range a n Hn). eexists.
  split; [reflexivity|].
  rewrite !mask_in_range by lia. do 2 f_equal.
  apply bit_msb_ext. intros i Hi. cbn [IPAddressV6_of_bytes addr_].
  rewrite !bit_msb_Bytes_mask, !masks_bits by lia.
  rewrite andb_assoc. f_equal.
  destruct (Nat.ltb_spec i (N.to_nat k)), (Nat.ltb_spec i (N.to_nat n)),
    (Nat.ltb_spec i (N.to_nat (N.min n k))); try reflexivity; lia.
Qed.

Lemma mask_mask_witness :
  (40 <= 128)%N /\ (64 <= 128)%N /\
  exists r, mask addr_2001_db8 40 = Ok r /\
            mask r 64 = mask addr_2001_db8 (N.min 40 64).
Proof.
  split; [lia|]. split; [lia|].
  apply (mask_mask addr_2001_db8 40 64); lia.
Defined.

(** X3. The two ends of the table: [/128] keeps every byte of the address
    and [/0] clears them all; both drop the scope id. *)
Theorem mask_ends (a : IPAddressV6) :
  mask a 128 = Ok (mkIPAddressV6 (addr_ a) 0) /\
  mask a 0 = Ok (mkIPAddressV6 zero16 0).
Proof.
  rewrite !mask_in_range by lia. unfold IPAddressV6_of_bytes, default_scope.
  split.
  - do 2 f_equal. apply bit_msb_ext. intros i Hi.
    rewrite bit_msb_Bytes_mask, masks_bits by (simpl; lia).
    replace (i <? N.to_nat 128)%nat with true; [reflexivity|].
    symmetry. apply Nat.ltb_lt. simpl. lia.
  - reflexivity.
Qed.

(** ** Subnet membership *)

(** X4. Under the table mask of a prefix length [n <= 128], an address is
    in a subnet exactly when the two agree on their first [n] bits; the
    scope ids play no part. *)
Theorem inSubnetWithMask_prefix (a subnet : IPAddressV6) (n : N) :
  (n <= 128)%N ->
  exists m,
    fetchMask n = Ok m /\
    (inSubnetWithMask a subnet m = true <->
     forall i, (i < N.to_nat n)%nat ->
               bit_msb (addr_ a) i = bit_msb (addr_ subnet) i).
Proof.
  intros Hn. rewrite (fetchMask_in_range n Hn). eexists.
  split; [reflexivity|].
  unfold inSubnetWithMask, toByteArray. rewrite ByteArray16_eqb_eq. split.
  - intros E i Hi.
    assert (B : bit_msb (Bytes_mask (addr_ a)
                           (nth (N.to_nat n) masks_ zero16)) i
                = bit_msb (Bytes_mask (addr_ subnet)
                             (nth (N.to_nat n) masks_ zero16)) i)
      by (rewrite E; reflexivity).
    rewrite !bit_msb_Bytes_mask, !masks_bits in B by lia.
    apply Nat.ltb_lt in Hi. rewrite Hi, !andb_true_r in B. exact B.
  - intros H. apply bit_msb_ext. intros i Hi.
    rewrite !bit_msb_Bytes_mask, !masks_bits by lia.
    destruct (Nat.ltb_spec i (N.to_nat n)) as [L|L].
    + rewrite (H i L). reflexivity.
    + rewrite !andb_false_r. reflexivity.
Qed.

(** X5. Every address lies in the subnet that its own masked form names. *)
Theorem inSubnetWithMask_own_network (a : IPAddressV6) (n : N) :
  (n <= 128)%N ->
  exists r m,
    mask a n = Ok r /\ fetchMask n = Ok m /\
    inSubnetWithMask a r m = true.
Proof.
  intros Hn. rewrite (mask_in_range a n Hn), (fetchMask_in_range n Hn).
  do 2 eexists. split; [reflexivity|]. split; [reflexivity|].
  unfold inSubnetWithMask, toByteArray. apply ByteArray16_eqb_eq.
  apply bit_msb_ext. intros i Hi. cbn [IPAddressV6_of_bytes addr_].
  rewrite !bit_msb_Bytes_mask, !masks_bits by lia.
  destruct (i <? N.to_nat n)%nat, (bit_msb (addr_ a) i); reflexivity.
Qed.

Lemma inSubnetWithMask_prefix_witness :
  (32 <= 128)%N /\
  exists m,
    fetchMask 32 = Ok m /\
    (inSubnetWithMask addr_2001_db8 (IPAddressV6_of_bytes
       (BA x20 x01 x0d xb8 x00 x00 x00 x00 x00 x00 x00 x00 x00 x00 x00 x00))
       m = true <->
     forall i, (i < N.to_nat 32)%nat ->
       bit_msb (addr_ addr_2001_db8) i
       = bit_msb (BA x20 x01 x0d xb8 x00 x00 x00 x00
                     x00 x00 x00 x00 x00 x00 x00 x00) i).
Proof.
  split; [lia|].
  apply (inSubnetWithMask_prefix addr_2001_db8
           (IPAddressV6_of_bytes
              (BA x20 x01 x0d xb8 x00 x00 x00 x00
                  x00 x00 x00 x00 x00 x00 x00 x00)) 32).
  lia.
Defined.

Lemma inSubnetWithMask_own_network_witness :
  (40 <= 128)%N /\
  exists r m,
    mask addr_2001_db8 40 = Ok r /\ fetchMask 40 = Ok m /\
    inSubnetWithMask addr_2001_db8 r m = true.
Proof.
  split; [lia | apply (inSubnetWithMask_own_network addr_2001_db8 40); lia].
Defined.

(** 2001:db8::1 is in 2001:db8::/32 and 2001:db9::1 is not. *)
Example inSubnet_2001_db8 :
  inSubnetWithMask
    (IPAddressV6_of_bytes (BA x20 x01 x0d xb8 x00 x00 x00 x00
                              x00 x00 x00 x00 x00 x00 x00 x01))
    (IPAddressV6_of_bytes (BA x20 x01 x0d xb8 x00 x00 x00 x00
                              x00 x00 x00 x00 x00 x00 x00 x00))
    (nth 32 masks_ zero16) = true /\
  inSubnetWithMask
    (IPAddressV6_of_bytes (BA x20 x01 x0d xb9 x00 x00 x00 x00
                              x00 x00 x00 x00 x00 x00 x00 x01))
    (IPAddressV6_of_bytes (BA x20 x01 x0d xb8 x00 x00 x00 x00
                              x00 x00 x00 x00 x00 x00 x00 x00))
    (nth 32 masks_ zero16) = false.
Proof. split; reflexivity. Qed.

(** ** Bytes against the masks the predicates use *)

Lemma Byte_eqb_Z (c b : byte) :
  Byte.eqb c b = (byte_to_Z b =? byte_to_Z c).
Proof.
  destruct (Z.eqb_spec (byte_to_Z b) (byte_to_Z c)) as [E|E].
  - apply byte_to_Z_inj in E. subst. apply Byte.byte_dec_lb. reflexivity.
  - destruct (Byte.eqb c b) eqn:F; [|reflexivity].
    apply Byte.byte_dec_bl in F. congruence.
Qed.

Lemma byte_and_ff (b : byte) : byte_and xff b = b.
Proof. destruct b; reflexivity. Qed.

Lemma byte_and_00 (b : byte) : byte_and x00 b = x00.
Proof. reflexivity. Qed.

Lemma byte_and_c0_is_80 (b : byte) :
  Byte.eqb x80 (byte_and xc0 b)
  = (0x80 <=? byte_to_Z b) && (byte_to_Z b <=? 0xbf).
Proof. destruct b; reflexivity. Qed.

Lemma byte_and_e0_is_20 (b : byte) :
  Byte.eqb x20 (byte_and xe0 b)
  = (0x20 <=? byte_to_Z b) && (byte_to_Z b <=? 0x3f).
Proof. destruct b; reflexivity. Qed.

Lemma byte_and_fe_is_fc (b : byte) :
  Byte.eqb xfc (byte_and xfe b)
  = (0xfc <=? byte_to_Z b) && (byte_to_Z b <=? 0xfd).
Proof. destruct b; reflexivity. Qed.

(** The low and the high nibble of a byte. *)
Lemma low_nibble (b : byte) :
  byte_to_Z (Z_to_byte (Z.land (byte_to_Z b) 0xf)) = byte_to_Z b mod 16.
Proof. destruct b; reflexivity. Qed.

Lemma high_nibble (b : byte) :
  byte_to_Z (Z_to_byte (Z.land (Z.shiftr (byte_to_Z b) 4) 0xf))
  = byte_to_Z b / 16.
Proof. destruct b; reflexivity. Qed.

Lemma inBinarySubnet_in_range (a : IPAddressV6) (p : byte * byte) (n : N) :
  (n <= 128)%N ->
  inBinarySubnet a p n
  = Ok (Byte.eqb (fst p)
          (byte_and (by0 (nth (N.to_nat n) masks_ zero16)) (by0 (addr_ a)))
        && Byte.eqb (snd p)
          (byte_and (by1 (nth (N.to_nat n) masks_ zero16)) (by1 (addr_ a)))).
Proof.
  intros H. unfold inBinarySubnet. rewrite (mask_in_range a n H).
  reflexivity.
Qed.

(** ** Link-local addresses *)

Lemma isLinkLocal_bytes (a : IPAddressV6) :
  isLinkLocal a
  = Ok ((byte_to_Z (by0 (addr_ a)) =? 0xfe)
        && ((0x80 <=? byte_to_Z (by1 (addr_ a)))
            && (byte_to_Z (by1 (addr_ a)) <=? 0xbf))).
Proof.
  unfold isLinkLocal. rewrite inBinarySubnet_in_range by lia.
  change (nth (N.to_nat 10) masks_ zero16)
    with (BA xff xc0 x00 x00 x00 x00 x00 x00 x00 x00 x00 x00 x00 x00 x00 x00).
  cbn [BA by0 by1 fst snd].
  rewrite byte_and_ff, byte_and_c0_is_80, Byte_eqb_Z. reflexivity.
Qed.

(** X6. [isLinkLocal] never throws, and it answers true exactly on
    fe80::/10: byte 0 is [0xfe] and byte 1 lies between [0x80] and
    [0xbf]. *)
Theorem isLinkLocal_spec (a : IPAddressV6) :
  (exists b, isLinkLocal a = Ok b) /\
  (isLinkLocal a = Ok true <->
   by0 (addr_ a) = xfe /\ 0x80 <= byte_to_Z (by1 (addr_ a)) <= 0xbf).
Proof.
  rewrite isLinkLocal_bytes. split; [eexists; reflexivity|]. split.
  - intros E. injection E as E.
    apply andb_true_iff in E. destruct E as [E1 E2].
    apply andb_true_iff in E2. destruct E2 as [E2 E3].
    apply Z.eqb_eq in E1. apply Z.leb_le in E2. apply Z.leb_le in E3.
    split; [apply byte_to_Z_inj; exact E1 | lia].
  - intros [E1 E2]. rewrite E1. f_equal.
    change (byte_to_Z xfe =? 0xfe) with true. cbn [andb].
    apply andb_true_iff. split; apply Z.leb_le; lia.
Qed.

(** X7. The address the link-local constructor derives from a MAC address
    is link-local, is not multicast and is classified [NORMAL], for every
    MAC address. *)
Theorem link_local_is_link_local (uninit : ByteArray16) (m : MacAddress) :
  isLinkLocal (IPAddressV6_link_local uninit m) = Ok true /\
  isMulticast (IPAddressV6_link_local uninit m) = false /\
  type (IPAddressV6_link_local uninit m) = NORMAL.
Proof.
  split; [|split].
  - rewrite isLinkLocal_bytes. destruct uninit, m. reflexivity.
  - destruct uninit, m. reflexivity.
  - destruct (type (IPAddressV6_link_local uninit m)) eqn:E;
      [| |reflexivity].
    + apply type_TEREDO_iff in E. destruct E as [E _].
      destruct uninit, m. discriminate E.
    + apply type_T6TO4_iff in E. destruct E as [E _].
      destruct uninit, m. discriminate E.
Qed.

(** ** Multicast flags and scope *)

Lemma Ok_inj {A : Type} (x y : A) : Ok x = Ok y <-> x = y.
Proof. split; [intros H; injection H as H; exact H | congruence]. Qed.

(** X8. On a multicast address both accessors return, in a debug as in a
    release build; the flags are the high nibble of byte 1 and the scope
    its low nibble. *)
Theorem multicast_nibbles (ndebug : bool) (a : IPAddressV6) :
  isMulticast a = true ->
  exists f s,
    getMulticastFlags ndebug a = Ok f /\
    getMulticastScope ndebug a = Ok s /\
    byte_to_Z (by1 (addr_ a)) = 16 * byte_to_Z f + byte_to_Z s /\
    0 <= byte_to_Z f < 16 /\ 0 <= byte_to_Z s < 16.
Proof.
  intros H. unfold getMulticastFlags, getMulticastScope, DCHECK.
  rewrite H, orb_true_r. cbn [bind]. do 2 eexists.
  split; [reflexivity|]. split; [reflexivity|].
  rewrite high_nibble, low_nibble.
  pose proof (byte_to_Z_range (by1 (addr_ a))) as R.
  split; [apply Z.div_mod; lia|]. split.
  - split; [apply Z.div_pos; lia | apply Z.div_lt_upper_bound; lia].
  - apply Z.mod_pos_bound. lia.
Qed.

(** ff02::1:ff34:5678 has flags 0 and scope 2. *)
Lemma multicast_nibbles_witness :
  isMulticast (IPAddressV6_of_bytes
                 (BA xff x02 x00 x00 x00 x00 x00 x00
                     x00 x00 x00 x01 xff x34 x56 x78)) = true /\
  exists f s,
    getMulticastFlags false (IPAddressV6_of_bytes
                 (BA xff x02 x00 x00 x00 x00 x00 x00
                     x00 x00 x00 x01 xff x34 x56 x78)) = Ok f /\
    getMulticastScope false (IPAddressV6_of_bytes
                 (BA xff x02 x00 x00 x00 x00 x00 x00
                     x00 x00 x00 x01 xff x34 x56 x78)) = Ok s /\
    byte_to_Z x02 = 16 * byte_to_Z f + byte_to_Z s /\
    0 <= byte_to_Z f < 16 /\ 0 <= byte_to_Z s < 16.
Proof.
  split; [reflexivity|].
  apply (multicast_nibbles false (IPAddressV6_of_bytes
                 (BA xff x02 x00 x00 x00 x00 x00 x00
                     x00 x00 x00 x01 xff x34 x56 x78))).
  reflexivity.
Defined.

(** X9. In a debug build the two accessors fail their check exactly on the
    addresses that are not multicast; in a release build they return on
    every address. *)
Theorem multicast_precondition (a : IPAddressV6) :
  (getMulticastFlags false a = CheckFailed <-> isMulticast a = false) /\
  (getMulticastScope false a = CheckFailed <-> isMulticast a = false) /\
  (exists f, getMulticastFlags true a = Ok f) /\
  (exists s, getMulticastScope true a = Ok s).
Proof.
  unfold getMulticastFlags, getMulticastScope, DCHECK.
  destruct (isMulticast a); cbn [orb bind].
  - repeat split; try discriminate; eexists; reflexivity.
  - repeat split; try reflexivity; eexists; reflexivity.
Qed.

(** ** Routable, loopback and private addresses *)

Lemma isRoutable_bytes (ndebug : bool) (a : IPAddressV6) :
  isRoutable ndebug a
  = Ok (((0x20 <=? byte_to_Z (by0 (addr_ a)))
         && (byte_to_Z (by0 (addr_ a)) <=? 0x3f))
        || ((byte_to_Z (by0 (addr_ a)) =? 0xff)
            && (byte_to_Z (by1 (addr_ a)) mod 16 =? 0xe))).
Proof.
  unfold isRoutable. rewrite inBinarySubnet_in_range by lia.
  change (nth (N.to_nat 3) masks_ zero16)
    with (BA xe0 x00 x00 x00 x00 x00 x00 x00 x00 x00 x00 x00 x00 x00 x00 x00).
  cbn [BA by0 by1 fst snd bind].
  rewrite byte_and_e0_is_20, byte_and_00.
  change (Byte.eqb x00 x00) with true. rewrite andb_true_r.
  destruct ((0x20 <=? byte_to_Z (by0 (addr_ a)))
            && (byte_to_Z (by0 (addr_ a)) <=? 0x3f)); [reflexivity|].
  cbn [orb]. unfold getMulticastScope, DCHECK, isMulticast.
  destruct (byte_to_Z (by0 (addr_ a)) =? 0xff); [|reflexivity].
  rewrite orb_true_r. cbn [bind andb]. rewrite low_nibble. reflexivity.
Qed.

(** X10. [isRoutable] returns on every address and in every build: the
    scope accessor it calls is reached on multicast addresses only.  It
    answers true exactly on 2000::/3 (byte 0 between [0x20] and [0x3f])
    and on the multicast addresses of scope [0xe]. *)
Theorem isRoutable_spec (ndebug : bool) (a : IPAddressV6) :
  (exists b, isRoutable ndebug a = Ok b) /\
  (isRoutable ndebug a = Ok true <->
   0x20 <= byte_to_Z (by0 (addr_ a)) <= 0x3f \/
   (by0 (addr_ a) = xff /\ byte_to_Z (by1 (addr_ a)) mod 16 = 0xe)).
Proof.
  rewrite isRoutable_bytes. split; [eexists; reflexivity|].
  rewrite Ok_inj, orb_true_iff, !andb_true_iff, !Z.leb_le, !Z.eqb_eq.
  rewrite <- (byte_is (by0 (addr_ a)) xff).
  change (byte_to_Z xff) with 0xff. tauto.
Qed.

Lemma createIPv4_mapped (a : IPAddressV6) :
  isIPv4Mapped a = true ->
  createIPv4 a = Ok (mkIPAddressV4 (by12 (addr_ a)) (by13 (addr_ a))
                                   (by14 (addr_ a)) (by15 (addr_ a))).
Proof.
  intros H. unfold createIPv4. rewrite H. reflexivity.
Qed.

Lemma isLoopback_bytes (isLoopbackV4 : IPAddressV4 -> bool)
      (a : IPAddressV6) :
  isLoopback isLoopbackV4 a
  = Ok ((isIPv4Mapped a
         && isLoopbackV4 (mkIPAddressV4 (by12 (addr_ a)) (by13 (addr_ a))
                                        (by14 (addr_ a)) (by15 (addr_ a))))
        || IN6_IS_ADDR_LOOPBACK (addr_ a)).
Proof.
  unfold isLoopback. destruct (isIPv4Mapped a) eqn:M.
  - rewrite (createIPv4_mapped a M). cbn [bind andb].
    destruct (isLoopbackV4 _); reflexivity.
  - reflexivity.
Qed.

(** X11. [isLoopback] never throws, although it calls [createIPv4]: the
    call is made on IPv4-mapped addresses only.  It answers true exactly
    on ::1 and on the IPv4-mapped addresses whose IPv4 address, bytes
    12..15, is a loopback address. *)
Theorem isLoopback_spec (isLoopbackV4 : IPAddressV4 -> bool)
        (a : IPAddressV6) :
  (exists b, isLoopback isLoopbackV4 a = Ok b) /\
  (isLoopback isLoopbackV4 a = Ok true <->
   (has_mapped_prefix a /\
    isLoopbackV4 (mkIPAddressV4 (by12 (addr_ a)) (by13 (addr_ a))
                                (by14 (addr_ a)) (by15 (addr_ a))) = true) \/
   addr_ a = BA x00 x00 x00 x00 x00 x00 x00 x00
                x00 x00 x00 x00 x00 x00 x00 x01).
Proof.
  rewrite isLoopback_bytes. split; [eexists; reflexivity|].
  rewrite Ok_inj, orb_true_iff, andb_true_iff, isIPv4Mapped_iff.
  unfold IN6_IS_ADDR_LOOPBACK. rewrite ByteArray16_eqb_eq. tauto.
Qed.

Lemma isPrivate_bytes (isLoopbackV4 isPrivateV4 : IPAddressV4 -> bool)
      (a : IPAddressV6) :
  isPrivate isLoopbackV4 isPrivateV4 a
  = Ok ((isIPv4Mapped a
         && isPrivateV4 (mkIPAddressV4 (by12 (addr_ a)) (by13 (addr_ a))
                                       (by14 (addr_ a)) (by15 (addr_ a))))
        || ((isIPv4Mapped a
             && isLoopbackV4 (mkIPAddressV4 (by12 (addr_ a)) (by13 (addr_ a))
                                            (by14 (addr_ a)) (by15 (addr_ a))))
            || IN6_IS_ADDR_LOOPBACK (addr_ a)
            || ((0xfc <=? byte_to_Z (by0 (addr_ a)))
                && (byte_to_Z (by0 (addr_ a)) <=? 0xfd)))).
Proof.
  assert (U : inBinarySubnet a (xfc, x00) 7
              = Ok ((0xfc <=? byte_to_Z (by0 (addr_ a)))
                    && (byte_to_Z (by0 (addr_ a)) <=? 0xfd))).
  { rewrite inBinarySubnet_in_range by lia.
    change (nth (N.to_nat 7) masks_ zero16)
      with (BA xfe x00 x00 x00 x00 x00 x00 x00
               x00 x00 x00 x00 x00 x00 x00 x00).
    cbn [BA by0 by1 fst snd]. rewrite byte_and_fe_is_fc, byte_and_00.
    change (Byte.eqb x00 x00) with true. rewrite andb_true_r. reflexivity. }
  unfold isPrivate. rewrite isLoopback_bytes, U.
  destruct (isIPv4Mapped a) eqn:M.
  - rewrite (createIPv4_mapped a M). cbn [bind andb].
    destruct (isPrivateV4 _); [reflexivity|]. cbn [orb].
    destruct (isLoopbackV4 _ || IN6_IS_ADDR_LOOPBACK (addr_ a));
      reflexivity.
  - cbn [bind andb orb].
    destruct (IN6_IS_ADDR_LOOPBACK (addr_ a)); reflexivity.
Qed.

(** X12. [isPrivate] never throws.  It answers true exactly on the
    IPv4-mapped addresses whose IPv4 address is private, on the loopback
    addresses, and on fc00::/7 (byte 0 is [0xfc] or [0xfd]). *)
Theorem isPrivate_spec (isLoopbackV4 isPrivateV4 : IPAddressV4 -> bool)
        (a : IPAddressV6) :
  (exists b, isPrivate isLoopbackV4 isPrivateV4 a = Ok b) /\
  (isPrivate isLoopbackV4 isPrivateV4 a = Ok true <->
   (has_mapped_prefix a /\
    isPrivateV4 (mkIPAddressV4 (by12 (addr_ a)) (by13 (addr_ a))
                               (by14 (addr_ a)) (by15 (addr_ a))) = true) \/
   isLoopback isLoopbackV4 a = Ok true \/
   0xfc <= byte_to_Z (by0 (addr_ a)) <= 0xfd).
Proof.
  rewrite isPrivate_bytes, isLoopback_bytes.
  split; [eexists; reflexivity|].
  rewrite !Ok_inj, !orb_true_iff, !andb_true_iff, isIPv4Mapped_iff,
    !Z.leb_le.
  tauto.
Qed.

(** ** The solicited-node address, continued *)

Lemma getSolicitedNodeAddress_value (ndebug : bool) (a : IPAddressV6) :
  ndebug || negb (isMulticast a) = true ->
  getSolicitedNodeAddress ndebug a
  = Ok (mkIPAddressV6
          (BA xff x02 x00 x00 x00 x00 x00 x00 x00 x00 x00 x01 xff
              (by13 (addr_ a)) (by14 (addr_ a)) (by15 (addr_ a))) 0).
Proof.
  intros H. unfold getSolicitedNodeAddress, DCHECK. rewrite H.
  destruct a as [[b0 b1 b2 b3 b4 b5 b6 b7 b8 b9 b10 b11 b12 b13 b14 b15] sc].
  reflexivity.
Qed.

(** X13. The solicited-node address of a non-multicast address is a
    multicast address with flags 0, scope 2 and scope id 0; being
    multicast, it is itself refused by [getSolicitedNodeAddress] in a
    debug build. *)
Theorem solicited_node_is_multicast (ndebug : bool) (a : IPAddressV6) :
  isMulticast a = false ->
  exists r,
    getSolicitedNodeAddress ndebug a = Ok r /\
    isMulticast r = true /\
    getMulticastFlags ndebug r = Ok x00 /\
    getMulticastScope ndebug r = Ok x02 /\
    scope_ r = 0 /\
    getSolicitedNodeAddress false r = CheckFailed.
Proof.
  intros H. rewrite getSolicitedNodeAddress_value
    by (rewrite H; apply orb_true_r).
  eexists. split; [reflexivity|].
  destruct ndebug; repeat split; reflexivity.
Qed.

Lemma solicited_node_is_multicast_witness :
  isMulticast addr_fe80 = false /\
  exists r,
    getSolicitedNodeAddress false addr_fe80 = Ok r /\
    isMulticast r = true /\
    getMulticastFlags false r = Ok x00 /\
    getMulticastScope false r = Ok x02 /\
    scope_ r = 0 /\
    getSolicitedNodeAddress false r = CheckFailed.
Proof.
  split; [reflexivity|].
  apply (solicited_node_is_multicast false addr_fe80). reflexivity.
Defined.

(** X14. On a multicast address [getSolicitedNodeAddress] fails its check
    in a debug build; a release build has no check and returns
    ff02::1:ffXX:XXXX all the same. *)
Theorem solicited_node_of_multicast (a : IPAddressV6) :
  isMulticast a = true ->
  getSolicitedNodeAddress false a = CheckFailed /\
  getSolicitedNodeAddress true a
  = Ok (mkIPAddressV6
          (BA xff x02 x00 x00 x00 x00 x00 x00 x00 x00 x00 x01 xff
              (by13 (addr_ a)) (by14 (addr_ a)) (by15 (addr_ a))) 0).
Proof.
  intros H. split.
  - unfold getSolicitedNodeAddress, DCHECK. rewrite H. reflexivity.
  - apply getSolicitedNodeAddress_value. reflexivity.
Qed.

(** ff02::1 in a debug and in a release build. *)
Lemma solicited_node_of_multicast_witness :
  isMulticast (IPAddressV6_of_bytes
                 (BA xff x02 x00 x00 x00 x00 x00 x00
                     x00 x00 x00 x00 x00 x00 x00 x01)) = true /\
  getSolicitedNodeAddress false
    (IPAddressV6_of_bytes (BA xff x02 x00 x00 x00 x00 x00 x00
                              x00 x00 x00 x00 x00 x00 x00 x01))
  = CheckFailed /\
  getSolicitedNodeAddress true
    (IPAddressV6_of_bytes (BA xff x02 x00 x00 x00 x00 x00 x00
                              x00 x00 x00 x00 x00 x00 x00 x01))
  = Ok (mkIPAddressV6
          (BA xff x02 x00 x00 x00 x00 x00 x00
              x00 x00 x00 x01 xff x00 x00 x01) 0).
Proof.
  split; [reflexivity|].
  apply (solicited_node_of_multicast
           (IPAddressV6_of_bytes (BA xff x02 x00 x00 x00 x00 x00 x00
                                     x00 x00 x00 x00 x00 x00 x00 x01))).
  reflexivity.
Defined.

(** ** IPv4-mapped addresses, continued *)

(** X15. [createIPv4] returns exactly on the addresses with the
    IPv4-mapped prefix, and then yields bytes 12..15; on every other
    address it throws the [IPAddressFormatException] that says so. *)
Theorem createIPv4_spec (a : IPAddressV6) :
  (returns (createIPv4 a) <-> has_mapped_prefix a) /\
  (createIPv4 a
   = Throw (IPAddressFormatException "addr is not v4-to-v6-mapped")
   <-> ~ has_mapped_prefix a) /\
  (forall v4, createIPv4 a = Ok v4 ->
     v4 = mkIPAddressV4 (by12 (addr_ a)) (by13 (addr_ a))
                        (by14 (addr_ a)) (by15 (addr_ a))).
Proof.
  rewrite <- isIPv4Mapped_iff. destruct (isIPv4Mapped a) eqn:M.
  - rewrite (createIPv4_mapped a M). split; [|split].
    + split; [reflexivity | intros _; eexists; reflexivity].
    + split; [discriminate | intros F; exfalso; apply F; reflexivity].
    + intros v4 E. injection E as <-. reflexivity.
  - unfold createIPv4. rewrite M. cbn [negb]. split; [|split].
    + split; [intros [v E]; discriminate E | discriminate].
    + split; [intros _; discriminate | reflexivity].
    + intros v4 E. discriminate E.
Qed.

(** X16. [hash] returns on every address, and two addresses with the same
    16 bytes have the same hash whatever their scope ids. *)
Theorem hash_ignores_scope
        (hashV4 : IPAddressV4 -> Z) (AF_INET6 : Z)
        (Hash128 : list byte -> Z -> Z -> Z * Z)
        (hash_combine : Z -> Z -> Z -> Z) (a : IPAddressV6) (scope : Z) :
  exists h,
    hash hashV4 AF_INET6 Hash128 hash_combine a = Ok h /\
    hash hashV4 AF_INET6 Hash128 hash_combine
         (mkIPAddressV6 (addr_ a) scope) = Ok h.
Proof.
  unfold hash, IPAddress_createIPv4.
  change (isIPv4Mapped (mkIPAddressV6 (addr_ a) scope))
    with (isIPv4Mapped a).
  destruct (isIPv4Mapped a) eqn:M.
  - rewrite (createIPv4_mapped a M).
    change (createIPv4 (mkIPAddressV6 (addr_ a) scope))
      with (createIPv4 a).
    rewrite (createIPv4_mapped a M). eexists. split; reflexivity.
  - cbn [addr_]. destruct (Hash128 _ 0 0). eexists. split; reflexivity.
Qed.

(** ** Reading a byte back *)

(** X17. [getNthMSByte] returns exactly for the indices 0..15 and throws
    [std::invalid_argument] beyond; on the address built from a 16-byte
    buffer it returns the byte of the buffer at that index. *)
Theorem getNthMSByte_fromBinary (family : string) (b : list byte) (i : N) :
  List.length b = 16%nat ->
  exists a,
    fromBinary b = Ok a /\
    ((i <= 15)%N -> getNthMSByte family a i = Value (nth (N.to_nat i) b x00)) /\
    ((15 < i)%N ->
     getNthMSByte family a i
     = StdThrow (invalid_argument
                   ("Byte index must be <= 15 for addresses of type :"
                    ++ family)%string)).
Proof.
  intros H. unfold fromBinary. rewrite (setFromBinary_16 _ b H).
  eexists. split; [reflexivity|].
  unfold getNthMSByte, byteCount, bytes. cbn [addr_].
  rewrite (to_list_memcpy16 b H). split; intros Hi.
  - destruct (N.ltb_spec (16 - 1) i) as [L|L]; [lia | reflexivity].
  - destruct (N.ltb_spec (16 - 1) i) as [L|L]; [reflexivity | lia].
Qed.

Lemma getNthMSByte_fromBinary_witness :
  exists a,
    fromBinary (bytes addr_fe80) = Ok a /\
    ((13 <= 15)%N ->
     getNthMSByte "AF_INET6" a 13
     = Value (nth (N.to_nat 13) (bytes addr_fe80) x00)) /\
    ((15 < 13)%N ->
     getNthMSByte "AF_INET6" a 13
     = StdThrow (invalid_argument
                   ("Byte index must be <= 15 for addresses of type :"
                    ++ "AF_INET6")%string)).
Proof.
  apply (getNthMSByte_fromBinary "AF_INET6" (bytes addr_fe80) 13).
  reflexivity.
Defined.

(** ** How the classifications relate *)

Lemma type_not_NORMAL_by0 (a : IPAddressV6) :
  type a <> NORMAL -> by0 (addr_ a) = x20.
Proof.
  intros H. destruct (type a) eqn:E; [| |contradiction].
  - apply type_TEREDO_iff in E. apply E.
  - apply type_T6TO4_iff in E. apply E.
Qed.

Lemma isIPv4Mapped_by0 (a : IPAddressV6) :
  isIPv4Mapped a = true -> by0 (addr_ a) = x00.
Proof.
  intros H. apply isIPv4Mapped_iff in H. destruct H as [H _].
  apply (H 0%nat). lia.
Qed.

(** X18. A Teredo or 6to4 address is routable, and it is neither
    link-local, nor multicast, nor IPv4-mapped. *)
Theorem transition_address_is_routable (ndebug : bool) (a : IPAddressV6) :
  type a <> NORMAL ->
  isRoutable ndebug a = Ok true /\
  isLinkLocal a = Ok false /\
  isMulticast a = false /\
  isIPv4Mapped a = false.
Proof.
  intros H. apply type_not_NORMAL_by0 in H.
  rewrite isRoutable_bytes, isLinkLocal_bytes. unfold isMulticast.
  rewrite H. repeat split.
  destruct (isIPv4Mapped a) eqn:M; [|reflexivity].
  apply isIPv4Mapped_by0 in M. congruence.
Qed.

Lemma transition_address_is_routable_witness :
  type addr_6to4 <> NORMAL /\
  isRoutable false addr_6to4 = Ok true /\
  isLinkLocal addr_6to4 = Ok false /\
  isMulticast addr_6to4 = false /\
  isIPv4Mapped addr_6to4 = false.
Proof.
  split; [discriminate|].
  apply (transition_address_is_routable false addr_6to4). discriminate.
Defined.

(** X19. An IPv4-mapped address is classified [NORMAL]; it is not
    routable, not link-local and not multicast, and [getIPv4For6To4]
    throws on it. *)
Theorem mapped_address_is_plain
        (ndebug : bool) (getnameinfo : sockaddr_in6 -> option string)
        (toHex : list byte -> string) (a : IPAddressV6) :
  isIPv4Mapped a = true ->
  type a = NORMAL /\
  isRoutable ndebug a = Ok false /\
  isLinkLocal a = Ok false /\
  isMulticast a = false /\
  exists e, getIPv4For6To4 getnameinfo toHex a = Throw e.
Proof.
  intros H. pose proof (isIPv4Mapped_by0 a H) as B.
  assert (T : type a = NORMAL).
  { destruct (type a) eqn:E; [| |reflexivity].
    - apply type_TEREDO_iff in E. destruct E as [E _]. congruence.
    - apply type_T6TO4_iff in E. destruct E as [E _]. congruence. }
  rewrite isRoutable_bytes, isLinkLocal_bytes. unfold isMulticast.
  rewrite B. repeat split; try assumption.
  rewrite getIPv4For6To4_other by (rewrite T; discriminate).
  destruct (getnameinfo (toSockAddr a)); eexists; reflexivity.
Qed.

Lemma mapped_address_is_plain_witness :
  isIPv4Mapped addr_mapped = true /\
  type addr_mapped = NORMAL /\
  isRoutable false addr_mapped = Ok false /\
  isLinkLocal addr_mapped = Ok false /\
  isMulticast addr_mapped = false /\
  exists e,
    getIPv4For6To4 sample_getnameinfo sample_toHex addr_mapped = Throw e.
Proof.
  split; [reflexivity|].
  apply (mapped_address_is_plain false sample_getnameinfo sample_toHex
                                 addr_mapped).
  reflexivity.
Defined.

(** From /32 on, the first four bytes of the mask are [ff]. *)
Lemma masks_head (n : nat) :
  (32 <= n <= 128)%nat ->
  by0 (nth n masks_ zero16) = xff /\ by1 (nth n masks_ zero16) = xff /\
  by2 (nth n masks_ zero16) = xff /\ by3 (nth n masks_ zero16) = xff.
Proof.
  intros H.
  assert (C : forallb (fun k =>
                (k <? 32)%nat
                || (Byte.eqb (by0 (nth k masks_ zero16)) xff
                    && (Byte.eqb (by1 (nth k masks_ zero16)) xff
                    && (Byte.eqb (by2 (nth k masks_ zero16)) xff
                    && Byte.eqb (by3 (nth k masks_ zero16)) xff))))
                (seq 0 129) = true) by (vm_compute; reflexivity).
  pose proof (forallb_below _ 129 C n ltac:(lia)) as Cn. cbv beta in Cn.
  destruct (Nat.ltb_spec n 32) as [L|L]; [lia|]. cbn [orb] in Cn.
  apply andb_true_iff in Cn. destruct Cn as [C0 Cn].
  apply andb_true_iff in Cn. destruct Cn as [C1 Cn].
  apply andb_true_iff in Cn. destruct Cn as [C2 C3].
  repeat split; apply Byte.byte_dec_bl; assumption.
Qed.

(** X20. Masking with a prefix length of 32 or more leaves the
    classification of an address as it was. *)
Theorem mask_keeps_type (a : IPAddressV6) (n : N) :
  (32 <= n <= 128)%N ->
  exists r, mask a n = Ok r /\ type r = type a.
Proof.
  intros H. rewrite mask_in_range by lia. eexists. split; [reflexivity|].
  rewrite !type_unfold. cbn [IPAddressV6_of_bytes addr_ Bytes_mask
                               by0 by1 by2 by3].
  destruct (masks_head (N.to_nat n)) as (M0 & M1 & M2 & M3); [lia|].
  rewrite M0, M1, M2, M3, !byte_and_ff. reflexivity.
Qed.

(** The Teredo address 2001:0:4136:e378:8000:63bf:3fff:fdd2 under /48. *)
Lemma mask_keeps_type_witness :
  (32 <= 48 <= 128)%N /\
  exists r,
    mask (IPAddressV6_of_bytes
            (BA x20 x01 x00 x00 x41 x36 xe3 x78
                x80 x00 x63 xbf x3f xff xfd xd2)) 48 = Ok r /\
    type r = type (IPAddressV6_of_bytes
                     (BA x20 x01 x00 x00 x41 x36 xe3 x78
                         x80 x00 x63 xbf x3f xff xfd xd2)).
Proof.
  split; [lia|].
  apply (mask_keeps_type (IPAddressV6_of_bytes
                            (BA x20 x01 x00 x00 x41 x36 xe3 x78
                                x80 x00 x63 xbf x3f xff xfd xd2)) 48).
  lia.
Defined.

(** ** Word unpacking, continued *)

Lemma length_unpackInto_loop (src : list byte) (n : nat) :
  forall (dest : list Z) (i hi lo : nat),
    List.length (unpackInto_loop src dest n i hi lo) = List.length dest.
Proof.
  induction n as [|n IH]; intros dest i hi lo; cbn [unpackInto_loop];
    [reflexivity|].
  rewrite IH. apply length_upd.
Qed.

(** X21. [unpackInto] writes the first [count] words of [dest] and nothing
    else: the array keeps its length and every word from index [count] on
    keeps its value. *)
Theorem unpackInto_frame (src : list byte) (dest : list Z) (count j : nat) :
  (count <= List.length dest)%nat -> (count <= j)%nat ->
  List.length (unpackInto src dest count) = List.length dest /\
  word (unpackInto src dest count) j = word dest j.
Proof.
  intros Hc Hj. unfold unpackInto. split; [apply length_unpackInto_loop|].
  pose proof (unpackInto_loop_word src count dest 0 j) as L.
  change (2 * 0 + 1)%nat with 1%nat in L. change (2 * 0)%nat with 0%nat in L.
  rewrite L by exact Hc.
  destruct (Nat.ltb_spec j (0 + count)) as [F|_]; [lia|].
  rewrite andb_false_r. reflexivity.
Qed.

Lemma unpackInto_frame_witness :
  (2 <= List.length [7; 8; 9])%nat /\ (2 <= 2)%nat /\
  List.length (unpackInto (bytes addr_2001_db8) [7; 8; 9] 2)
  = List.length [7; 8; 9] /\
  word (unpackInto (bytes addr_2001_db8) [7; 8; 9] 2) 2 = word [7; 8; 9] 2.
Proof.
  split; [simpl; lia|]. split; [lia|].
  apply (unpackInto_frame (bytes addr_2001_db8) [7; 8; 9] 2 2); simpl; lia.
Defined.

(** ** Construction from text *)

Lemma length_append (s t : string) :
  String.length (s ++ t) = (String.length s + String.length t)%nat.
Proof. induction s as [|c s IH]; simpl; [reflexivity | rewrite IH; reflexivity]. Qed.

Lemma get_append_last (s t : string) (c : ascii) :
  String.get (String.length s) (s ++ String c t) = Some c.
Proof. induction s as [|d s IH]; simpl; [reflexivity | exact IH]. Qed.

Lemma substring_0_append (s t : string) :
  substring 0 (String.length s) (s ++ t) = s.
Proof.
  induction s as [|c s IH]; simpl.
  - destruct t; reflexivity.
  - rewrite IH. reflexivity.
Qed.

Lemma bracketed_wrap (s : string) : bracketed ("[" ++ s ++ "]") = true.
Proof.
  unfold bracketed, front, back. cbn [append String.get String.length].
  rewrite length_append. cbn [String.length].
  replace (S (String.length s + 1) - 1)%nat with (S (String.length s))
    by lia.
  cbn [String.get Nat.sub]. rewrite get_append_last.
  reflexivity.
Qed.

Lemma strip_wrap (s : string) :
  substring 1 (String.length ("[" ++ s ++ "]") - 2) ("[" ++ s ++ "]") = s.
Proof.
  cbn [append String.length]. rewrite length_append. cbn [String.length].
  replace (S (String.length s + 1) - 2)%nat with (String.length s) by lia.
  cbn [substring]. apply substring_0_append.
Qed.

Lemma c_str_append_nul (s t : string) :
  c_str (s ++ String Ascii.zero t) = c_str s.
Proof.
  induction s as [|c s IH]; simpl; [reflexivity|].
  rewrite IH. reflexivity.
Qed.

(** A text in brackets always reaches the resolver, stripped. *)
Lemma IPAddressV6_of_string_wrapped
      (getaddrinfo : string -> option sockaddr_in6) (s : string) :
  IPAddressV6_of_string getaddrinfo ("[" ++ s ++ "]")
  = match getaddrinfo (c_str s) with
    | Some ipAddr =>
        Ok (mkIPAddressV6 (sin6_addr ipAddr) (u16 (sin6_scope_id ipAddr)))
    | None =>
        Throw (IPAddressFormatException
                 ("Invalid IPv6 address '" ++ s ++ "'")%string)
    end.
Proof.
  unfold IPAddressV6_of_string.
  assert (L : (String.length ("[" ++ s ++ "]") <? 2)%nat = false).
  { apply Nat.ltb_ge. cbn [append String.length]. rewrite length_append.
    cbn [String.length]. lia. }
  rewrite L, bracketed_wrap, strip_wrap. reflexivity.
Qed.

(** X22. Brackets around a text are stripped before it is parsed: when
    [s] has at least 2 characters and is not itself in brackets, the
    constructor does on ["[" ++ s ++ "]"] what it does on [s], the same
    address or the same exception. *)
Theorem IPAddressV6_of_string_brackets
        (getaddrinfo : string -> option sockaddr_in6) (s : string) :
  (2 <= String.length s)%nat -> bracketed s = false ->
  IPAddressV6_of_string getaddrinfo ("[" ++ s ++ "]")
  = IPAddressV6_of_string getaddrinfo s.
Proof.
  intros Hl Hb. rewrite IPAddressV6_of_string_wrapped.
  unfold IPAddressV6_of_string.
  destruct (Nat.ltb_spec (String.length s) 2) as [L|L]; [lia|].
  rewrite Hb. reflexivity.
Qed.

Lemma IPAddressV6_of_string_brackets_witness :
  (2 <= String.length "::1")%nat /\ bracketed "::1" = false /\
  IPAddressV6_of_string sample_getaddrinfo ("[" ++ "::1" ++ "]")
  = IPAddressV6_of_string sample_getaddrinfo "::1".
Proof.
  split; [simpl; lia|]. split; [reflexivity|].
  apply (IPAddressV6_of_string_brackets sample_getaddrinfo "::1");
    [simpl; lia | reflexivity].
Defined.

(** X23. A text of fewer than 2 characters is rejected as too short
    without the resolver being consulted, for every resolver; the same
    text in brackets is long enough and is handed to the resolver. *)
Theorem IPAddressV6_of_string_short
        (getaddrinfo : string -> option sockaddr_in6) (s : string) :
  (String.length s < 2)%nat ->
  IPAddressV6_of_string getaddrinfo s
  = Throw (IPAddressFormatException
             ("Invalid IPv6 address '" ++ s ++ "': address too short")
             %string) /\
  IPAddressV6_of_string getaddrinfo ("[" ++ s ++ "]")
  = match getaddrinfo (c_str s) with
    | Some ipAddr =>
        Ok (mkIPAddressV6 (sin6_addr ipAddr) (u16 (sin6_scope_id ipAddr)))
    | None =>
        Throw (IPAddressFormatException
                 ("Invalid IPv6 address '" ++ s ++ "'")%string)
    end.
Proof.
  intros H. split; [|apply IPAddressV6_of_string_wrapped].
  unfold IPAddressV6_of_string.
  destruct (Nat.ltb_spec (String.length s) 2) as [L|L]; [reflexivity | lia].
Qed.

Lemma IPAddressV6_of_string_short_witness :
  (String.length ":" < 2)%nat /\
  IPAddressV6_of_string sample_getaddrinfo ":"
  = Throw (IPAddressFormatException
             "Invalid IPv6 address ':': address too short") /\
  IPAddressV6_of_string sample_getaddrinfo "[:]"
  = Throw (IPAddressFormatException "Invalid IPv6 address ':'").
Proof.
  split; [simpl; lia|].
  apply (IPAddressV6_of_string_short sample_getaddrinfo ":"). simpl. lia.
Defined.

(** X24. The resolver is handed a C string, so a NUL character ends the
    text: when the constructor accepts [s], it accepts [s] followed by a
    NUL and any further characters, and builds the same address. *)
Theorem IPAddressV6_of_string_nul
        (getaddrinfo : string -> option sockaddr_in6)
        (s t : string) (a : IPAddressV6) :
  bracketed s = false -> bracketed (s ++ String Ascii.zero t) = false ->
  IPAddressV6_of_string getaddrinfo s = Ok a ->
  IPAddressV6_of_string getaddrinfo (s ++ String Ascii.zero t) = Ok a.
Proof.
  intros Hs Hst. unfold IPAddressV6_of_string. rewrite Hs, Hst.
  rewrite c_str_append_nul, length_append.
  destruct (Nat.ltb_spec (String.length s) 2) as [L|L]; [discriminate|].
  destruct (Nat.ltb_spec (String.length s + String.length (String Ascii.zero t)) 2)
    as [L'|L']; [lia|].
  destruct (getaddrinfo (c_str s)); [exact (fun H => H) | discriminate].
Qed.

Lemma IPAddressV6_of_string_nul_witness :
  IPAddressV6_of_string sample_getaddrinfo
    ("::1" ++ String Ascii.zero "example.org")
  = Ok (mkIPAddressV6 (BA x00 x00 x00 x00 x00 x00 x00 x00
                          x00 x00 x00 x00 x00 x00 x00 x01) 0).
Proof.
  apply (IPAddressV6_of_string_nul sample_getaddrinfo "::1" "example.org");
    reflexivity.
Defined.

(** X25. [validate] strips one pair of brackets as the constructor does,
    but has no minimum length: for every text [s] not itself in brackets,
    ["[" ++ s ++ "]"] is valid exactly when [s] is. *)
Theorem validate_brackets (inet_pton : string -> Z) (s : string) :
  bracketed s = false ->
  validate inet_pton ("[" ++ s ++ "]") = validate inet_pton s.
Proof.
  intros Hb. unfold validate. rewrite bracketed_wrap, strip_wrap, Hb.
  rewrite andb_false_r.
  replace (0 <? String.length ("[" ++ s ++ "]"))%nat with true;
    [reflexivity|].
  symmetry. apply Nat.ltb_lt. cbn [append String.length]. lia.
Qed.

Lemma validate_brackets_witness :
  bracketed "::1" = false /\
  validate sample_inet_pton ("[" ++ "::1" ++ "]")
  = validate sample_inet_pton "::1".
Proof.
  split; [reflexivity|].
  apply (validate_brackets sample_inet_pton "::1"). reflexivity.
Defined.

Example validate_sample :
  validate sample_inet_pton "[::1]" = true /\
  validate sample_inet_pton "::1" = true /\
  validate sample_inet_pton "" = false.
Proof. repeat split. Qed.
